(** * The Unread Archive: server routes and the client-side archive filter

    A shallow embedding of [server.js] (the express routes over the
    mongoose models [User], [Book] and [Article]) and of
    [ArchiveManager.filterItems] from [oop.js] / [bundle.js], with the
    properties the specification states about them.

    Conventions of the embedding.
    - A JavaScript string is a sequence of UTF-16 code units.  Texts are
      represented by [string], one [ascii] per code unit, which covers the
      code units below 256; [toLowerCase] and [trim] are the builtins
      restricted to that range.
    - A field of a request body, and a property of a client-side item, is
      either absent ([None], JavaScript's [undefined]) or a text.
    - A mongoose collection is the list of its documents in insertion
      order; the store is passed explicitly through every handler, and so
      is the [user] property of the request's session.
    - What a handler takes from outside (the clock, the generated ObjectId,
      the bcrypt salt) comes in an [Env] record. *)

From Stdlib Require Import String Ascii List ZArith NArith Bool Lia.
From Stdlib Require Import Sorting.Sorted Sorting.Permutation.
Import ListNotations.

Local Open Scope list_scope.
Local Open Scope string_scope.

(** ** JavaScript values and string builtins *)

Module JS.

(** [!x] is false exactly for a present, non-empty text. *)
Definition truthy (x : option string) : bool :=
  match x with
  | Some s => negb (s =? "")
  | None => false
  end.

(** [x || d] with a text default. *)
Definition orElse (x : option string) (d : string) : string :=
  match x with
  | Some s => if s =? "" then d else s
  | None => d
  end.

(** [s.slice(0, n)]: the first [n] code units, all of [s] when shorter. *)
Definition slice0 (n : nat) (s : string) : string := substring 0 n s.

Definition isUpper (n : N) : bool :=
  (((65 <=? n) && (n <=? 90)) ||
   ((192 <=? n) && (n <=? 222) && negb (n =? 215)))%N.

(** Case mapping of one code unit: A-Z and the Latin-1 capitals. *)
Definition lowerChar (c : ascii) : ascii :=
  let n := N_of_ascii c in
  if isUpper n then ascii_of_N (n + 32) else c.

Fixpoint toLowerCase (s : string) : string :=
  match s with
  | EmptyString => EmptyString
  | String c t => String (lowerChar c) (toLowerCase t)
  end.

(** WhiteSpace and LineTerminator code units below 256. *)
Definition isSpace (c : ascii) : bool :=
  let n := N_of_ascii c in
  (((9 <=? n) && (n <=? 13)) || (n =? 32) || (n =? 160))%N.

Fixpoint trimStart (s : string) : string :=
  match s with
  | EmptyString => EmptyString
  | String c t => if isSpace c then trimStart t else s
  end.

Fixpoint trimEnd (s : string) : string :=
  match s with
  | EmptyString => EmptyString
  | String c t =>
      match trimEnd t with
      | EmptyString => if isSpace c then EmptyString else String c EmptyString
      | t' => String c t'
      end
  end.

Definition trim (s : string) : string := trimEnd (trimStart s).

(** [s.includes(sub)]. *)
Fixpoint includes (s sub : string) : bool :=
  prefix sub s ||
  match s with
  | EmptyString => false
  | String _ t => includes t sub
  end.

(** [sub] occurs in [s]. *)
Definition Substring (sub s : string) : Prop :=
  exists pre post, s = pre ++ sub ++ post.

(** Substring match that ignores letter case. *)
Definition SubstringCI (sub s : string) : Prop :=
  Substring (toLowerCase sub) (toLowerCase s).

End JS.

(** ** Client side: [ArchiveManager.filterItems] *)

Module Archive.

Record Item := {
  title : option string;
  excerpt : option string;
  author : option string;
  tag : option string
}.

(** The two fields of an [ArchiveManager] that [filterItems] reads. *)
Record FilterState := {
  query : string;
  activeCategory : string
}.

(** The template literal of the text filter: the three fields, absent
    ones as the empty text, with one space between them. *)
Definition combined (item : Item) : string :=
  JS.orElse (title item) "" ++ " " ++
  JS.orElse (excerpt item) "" ++ " " ++
  JS.orElse (author item) "".

(** The category test inside the callback: [true] when the callback
    returns [false] at this point. *)
Definition categoryRejects (this : FilterState) (item : Item) : bool :=
  if negb (activeCategory this =? "") && negb (activeCategory this =? "All")
  then
    match tag item with
    | None => true
    | Some t =>
        (t =? "") ||
        negb (JS.includes (JS.toLowerCase t)
                          (JS.toLowerCase (activeCategory this)))
    end
  else false.

(** The callback given to [items.filter]. *)
Definition keeps (this : FilterState) (q : string) (item : Item) : bool :=
  if categoryRejects this item then false
  else if q =? "" then true
  else JS.includes (JS.toLowerCase (combined item)) q.

Definition filterItems (this : FilterState) (items : list Item) : list Item :=
  let q := JS.toLowerCase (JS.trim (query this)) in
  filter (keeps this q) items.

(** [Selects P l r]: [r] is exactly the subsequence of [l] made of the
    elements that satisfy [P], in the order of [l]. *)
Inductive Selects {A : Type} (P : A -> Prop) : list A -> list A -> Prop :=
| Selects_nil : Selects P [] []
| Selects_keep x l r : P x -> Selects P l r -> Selects P (x :: l) (x :: r)
| Selects_drop x l r : ~ P x -> Selects P l r -> Selects P (x :: l) r.

(** The category condition of the specification. *)
Definition categoryOK (this : FilterState) (item : Item) : Prop :=
  activeCategory this <> "All" ->
  JS.SubstringCI (activeCategory this) (JS.orElse (tag item) "").

(** The text condition in the words of the specification: the query
    occurs in the concatenation of title, excerpt and author. *)
Definition concatenation (item : Item) : string :=
  JS.orElse (title item) "" ++ JS.orElse (excerpt item) "" ++
  JS.orElse (author item) "".

Definition queryOK_spec (this : FilterState) (item : Item) : Prop :=
  JS.trim (query this) <> "" ->
  JS.SubstringCI (JS.trim (query this)) (concatenation item).

Definition matches_spec (this : FilterState) (item : Item) : Prop :=
  categoryOK this item /\ queryOK_spec this item.

(** The text condition of the code: the fields are joined by single
    spaces before the search. *)
Definition queryOK (this : FilterState) (item : Item) : Prop :=
  JS.trim (query this) <> "" ->
  JS.SubstringCI (JS.trim (query this)) (combined item).

Definition matches (this : FilterState) (item : Item) : Prop :=
  categoryOK this item /\ queryOK this item.

Definition zen : Item :=
  {| title := Some "Zen"; excerpt := None; author := None;
     tag := Some "Culture" |}.

Definition foodDiary : Item :=
  {| title := Some "Food Diary"; excerpt := None; author := None;
     tag := Some "Food" |}.

End Archive.

(** ** Server side: the mongoose models *)

Module Mongoose.

Definition ObjectId := N.
Bind Scope N_scope with ObjectId.

(** What a [try] block of the server can catch. *)
Inductive Error :=
| ValidationError (paths : list string)
| CastError (path : string)
| TypeError (message : string)
| IllegalArguments.

(** A computation that returns or throws. *)
Inductive Try (A : Type) :=
| Returns (a : A)
| Throws (e : Error).
Arguments Returns {A} a.
Arguments Throws {A} e.

Definition bind {A B : Type} (m : Try A) (k : A -> Try B) : Try B :=
  match m with
  | Returns a => k a
  | Throws e => Throws e
  end.

(** [try { body } catch (err) { handler }]. *)
Definition tryCatch {A : Type} (body : Try A) (handler : Error -> A) : A :=
  match body with
  | Returns a => a
  | Throws e => handler e
  end.

(** A route parameter [:id] as mongoose's cast to ObjectId sees it: a
    text that denotes an ObjectId, or one that does not. *)
Inductive IdParam :=
| Id (oid : ObjectId)
| NotAnId (text : string).

Definition castObjectId (p : IdParam) : Try ObjectId :=
  match p with
  | Id oid => Returns oid
  | NotAnId _ => Throws (CastError "_id")
  end.

(** The paths among [required] whose value is absent or the empty text:
    what the [required: true] validator of a String path reports. *)
Definition missing (required : list (string * option string)) : list string :=
  map fst (filter (fun kv => negb (JS.truthy (snd kv))) required).

Definition validate (required : list (string * option string)) : Try unit :=
  match missing required with
  | [] => Returns tt
  | paths => Throws (ValidationError paths)
  end.

(** [.sort({ createdAt: -1 })]: insertion of one document in a list
    kept in descending order of [key]. *)
Fixpoint insertDesc {A : Type} (key : A -> Z) (x : A) (l : list A) : list A :=
  match l with
  | [] => [x]
  | y :: t => if (key y <=? key x)%Z then x :: l else y :: insertDesc key x t
  end.

Definition sortDesc {A : Type} (key : A -> Z) (l : list A) : list A :=
  fold_right (insertDesc key) [] l.

(** The order [sortDesc] establishes between neighbours. *)
Definition before {A : Type} (key : A -> Z) (a b : A) : Prop :=
  (key b <= key a)%Z.

(** What the environment gives a request: [Date.now()], the ObjectId
    generated for a new document, and the salt bcrypt draws. *)
Record Env := {
  now : Z;
  newId : ObjectId;
  salt : string
}.

End Mongoose.

Module Import TryNotations.
Notation "x <- m ;; k" := (Mongoose.bind m (fun x => k))
  (at level 61, m at next level, right associativity).
End TryNotations.

(** [models/Book.js] *)
Module Book.
Import Mongoose.

Record doc := {
  _id : ObjectId;
  title : string;
  description : string;
  image : option string;
  createdAt : Z
}.

(** The object handed to [Book.create] and [Book.findByIdAndUpdate]. *)
Record fields := {
  f_title : option string;
  f_description : option string;
  f_image : option string
}.

(** [Book.find().sort({ createdAt: -1 })]. *)
Definition find_sorted (books : list doc) : list doc :=
  sortDesc createdAt books.

(** [Book.create(fields)]: schema validation, defaults, insertion. *)
Definition create (env : Env) (f : fields) (books : list doc)
  : Try (doc * list doc) :=
  _ <- validate [("title", f_title f); ("description", f_description f)] ;;
  let b := {| _id := newId env;
              title := JS.orElse (f_title f) "";
              description := JS.orElse (f_description f) "";
              image := f_image f;
              createdAt := now env |} in
  Returns (b, (books ++ [b])%list).

(** The update document: absent fields are not written. *)
Definition apply (f : fields) (b : doc) : doc :=
  {| _id := _id b;
     title := match f_title f with Some t => t | None => title b end;
     description :=
       match f_description f with Some t => t | None => description b end;
     image := match f_image f with Some t => Some t | None => image b end;
     createdAt := createdAt b |}.

Definition findById (oid : ObjectId) (books : list doc) : option doc :=
  find (fun b => (_id b =? oid)%N) books.

(** Rewrites the first document whose [_id] is [oid]. *)
Fixpoint updateFirst (oid : ObjectId) (f : fields) (books : list doc) : list doc :=
  match books with
  | [] => []
  | b :: t => if (_id b =? oid)%N then apply f b :: t
              else b :: updateFirst oid f t
  end.

(** Removes the first document whose [_id] is [oid]. *)
Fixpoint removeFirst (oid : ObjectId) (books : list doc) : list doc :=
  match books with
  | [] => []
  | b :: t => if (_id b =? oid)%N then t else b :: removeFirst oid t
  end.

(** [Book.findByIdAndUpdate(id, fields)]: the document found ([None] for
    JavaScript's [null]) and the collection afterwards. *)
Definition findByIdAndUpdate (id : IdParam) (f : fields) (books : list doc)
  : Try (option doc * list doc) :=
  oid <- castObjectId id ;;
  Returns (findById oid books, updateFirst oid f books).

(** [Book.findByIdAndDelete(id)]. *)
Definition findByIdAndDelete (id : IdParam) (books : list doc)
  : Try (option doc * list doc) :=
  oid <- castObjectId id ;;
  Returns (findById oid books, removeFirst oid books).

End Book.

(** [models/Article.js] *)
Module Article.
Import Mongoose.

Record doc := {
  _id : ObjectId;
  title : string;
  tag : string;
  author : string;
  readTime : string;
  excerpt : string;
  content : string;
  coverImage : string;
  isCommunity : bool;
  createdAt : Z
}.

(** The object handed to [Article.create]. *)
Record fields := {
  f_title : option string;
  f_tag : option string;
  f_author : option string;
  f_readTime : option string;
  f_excerpt : option string;
  f_content : option string;
  f_coverImage : option string
}.

(** A schema default replaces an absent value only. *)
Definition withDefault (x : option string) (d : string) : string :=
  match x with
  | Some s => s
  | None => d
  end.

Definition find_sorted (articles : list doc) : list doc :=
  sortDesc createdAt articles.

Definition create (env : Env) (f : fields) (articles : list doc)
  : Try (doc * list doc) :=
  _ <- validate [("title", f_title f); ("content", f_content f)] ;;
  let a := {| _id := newId env;
              title := JS.orElse (f_title f) "";
              tag := withDefault (f_tag f) "Article";
              author := withDefault (f_author f) "Anonymous";
              readTime := withDefault (f_readTime f) "3 min read";
              excerpt := withDefault (f_excerpt f) "";
              content := JS.orElse (f_content f) "";
              coverImage := withDefault (f_coverImage f) "";
              isCommunity := true;
              createdAt := now env |} in
  Returns (a, (articles ++ [a])%list).

End Article.

(** Modelled from the spec: [models/User.js] is not among the sources.
    The specification gives a user the fields id, name (optional),
    email (required) and passwordHash (required), and says that the
    uniqueness of emails rests on the check made by the signup handler,
    not on a constraint of the store. *)
Module User.
Import Mongoose.

Record doc := {
  _id : ObjectId;
  name : option string;
  email : string;
  passwordHash : string
}.

Record fields := {
  f_name : option string;
  f_email : option string;
  f_passwordHash : option string
}.

(** [User.findOne({ email })]: the first document with that email.  An
    absent email is sent to the store as [null] and matches no document,
    every user having an email. *)
Definition findOne (e : option string) (users : list doc) : option doc :=
  match e with
  | Some e => find (fun u => email u =? e) users
  | None => None
  end.

Definition create (env : Env) (f : fields) (users : list doc)
  : Try (doc * list doc) :=
  _ <- validate [("email", f_email f); ("passwordHash", f_passwordHash f)] ;;
  let u := {| _id := newId env;
              name := f_name f;
              email := JS.orElse (f_email f) "";
              passwordHash := JS.orElse (f_passwordHash f) "" |} in
  Returns (u, (users ++ [u])%list).

End User.

(** ** Server side: [server.js] *)

Module Server.
Import Mongoose.

(** [bcryptjs]: [hash rounds salt password] is [bcrypt.hash(password,
    rounds)] when the salt drawn is [salt]; [compare password hash] is
    [bcrypt.compare]. *)
Class Bcrypt := {
  hash : nat -> string -> string -> string;
  compare : string -> string -> bool
}.

(** The contract of the library the handlers rely on: a password
    verifies against each of its own hashes, and a hash is never the
    empty text. *)
Class BcryptLaws (B : Bcrypt) : Prop := {
  compare_hash : forall rounds salt pw, compare pw (hash rounds salt pw) = true;
  hash_nonempty : forall rounds salt pw, hash rounds salt pw <> ""
}.

(** The three persisted collections. *)
Record Db := {
  users : list User.doc;
  books : list Book.doc;
  articles : list Article.doc
}.

(** [req.session.user]. *)
Record SessionUser := {
  id : ObjectId;
  email : string;
  name : option string
}.

(** The session of a request: its [user] property, absent until a
    signup or signin sets it. *)
Definition Session := option SessionUser.

(** [req.body]: the submitted fields by name. *)
Definition Body := list (string * string).

Fixpoint field (k : string) (body : Body) : option string :=
  match body with
  | [] => None
  | (k', v) :: rest => if k' =? k then Some v else field k rest
  end.

(** The records a handler passes to the layout. *)
Inductive ViewData :=
| NoData
| BooksData (books : list Book.doc)
| CommunityArticles (articles : list Article.doc).

(** What [res.render('partials/layout', ...)] hands to the template:
    [res.locals.currentUser], set by the middleware for every request,
    and the handler's own locals. *)
Record View := {
  currentUser : option SessionUser;
  pageTitle : string;
  page : string;
  data : ViewData
}.

Inductive Response :=
| Redirect (location : string)
| Send (code : nat) (text : string)
| Render (view : View)
| Json (articles : list Article.doc).

Definition status (r : Response) : nat :=
  match r with
  | Redirect _ => 302
  | Send code _ => code
  | Render _ => 200
  | Json _ => 200
  end.

(** The result of handling one request. *)
Record Outcome := {
  response : Response;
  session : Session;
  db : Db
}.

Definition setUsers (d : Db) (us : list User.doc) : Db :=
  {| users := us; books := books d; articles := articles d |}.
Definition setBooks (d : Db) (bs : list Book.doc) : Db :=
  {| users := users d; books := bs; articles := articles d |}.
Definition setArticles (d : Db) (ars : list Article.doc) : Db :=
  {| users := users d; books := books d; articles := ars |}.

(** [res.locals.currentUser = req.session.user || null]. *)
Definition render (sess : Session) (title pg : string) (vd : ViewData)
  : Response :=
  Render {| currentUser := sess; pageTitle := title; page := pg; data := vd |}.

(** [content.slice(0, 120)]; a [TypeError] on [undefined]. *)
Definition slice120 (content : option string) : Try string :=
  match content with
  | Some c => Returns (JS.slice0 120 c)
  | None => Throws (TypeError "Cannot read properties of undefined")
  end.

Section Handlers.
Context {B : Bcrypt}.
Variable env : Env.
Variable sess : Session.
Variable d : Db.

Definition get_root : Outcome :=
  {| response := Redirect "/home"; session := sess; db := d |}.

Definition get_page (title pg : string) : Outcome :=
  {| response := render sess title pg NoData; session := sess; db := d |}.

(** [GET /articles].  The handler falls back to the empty list when the
    query throws; a read of the in-memory collection does not throw. *)
Definition get_articles : Outcome :=
  {| response := render sess "Articles" "articles"
                   (CommunityArticles (Article.find_sorted (articles d)));
     session := sess; db := d |}.

(** [GET /books] *)
Definition get_books : Outcome :=
  {| response := render sess "Books" "books"
                   (BooksData (Book.find_sorted (books d)));
     session := sess; db := d |}.

(** [POST /write] *)
Definition post_write (body : Body) : Outcome :=
  let title := field "title" body in
  let tag := field "tag" body in
  let author := field "author" body in
  let readTime := field "readTime" body in
  let excerpt := field "excerpt" body in
  let content := field "content" body in
  let coverImage := field "coverImage" body in
  tryCatch
    (if negb (JS.truthy title) || negb (JS.truthy content) then
       Returns {| response := Send 400 "Title and content are required.";
                  session := sess; db := d |}
     else
       excerpt' <- (if JS.truthy excerpt
                    then Returns (JS.orElse excerpt "")
                    else (s <- slice120 content ;; Returns (s ++ "..."))) ;;
       r <- Article.create env
              {| Article.f_title := title;
                 Article.f_tag := Some (JS.orElse tag "Article");
                 Article.f_author := Some (JS.orElse author "Anonymous");
                 Article.f_readTime := Some (JS.orElse readTime "3 min read");
                 Article.f_excerpt := Some excerpt';
                 Article.f_content := content;
                 Article.f_coverImage := coverImage |}
              (articles d) ;;
       Returns {| response := Redirect "/articles"; session := sess;
                  db := setArticles d (snd r) |})
    (fun err =>
       {| response := Send 500 "Failed to publish article.";
          session := sess; db := d |}).

(** [POST /signup] *)
Definition post_signup (body : Body) : Outcome :=
  let name := field "name" body in
  let email := field "email" body in
  let password := field "password" body in
  tryCatch
    (if negb (JS.truthy email) || negb (JS.truthy password) then
       Returns {| response := Redirect "/signin"; session := sess; db := d |}
     else
       match User.findOne email (users d) with
       | Some existing =>
           Returns {| response := Redirect "/signin"; session := sess;
                      db := d |}
       | None =>
           passwordHash <-
             match password with
             | Some pw => Returns (hash 10 (salt env) pw)
             | None => Throws IllegalArguments
             end ;;
           r <- User.create env
                  {| User.f_name := name;
                     User.f_email := email;
                     User.f_passwordHash := Some passwordHash |}
                  (users d) ;;
           let user := fst r in
           Returns {| response := Redirect "/home";
                      session := Some {| id := User._id user;
                                         email := User.email user;
                                         name := User.name user |};
                      db := setUsers d (snd r) |}
       end)
    (fun err => {| response := Redirect "/signin"; session := sess; db := d |}).

(** [POST /signin] *)
Definition post_signin (body : Body) : Outcome :=
  let email := field "email" body in
  let password := field "password" body in
  tryCatch
    (match User.findOne email (users d) with
     | None =>
         Returns {| response := Redirect "/signin"; session := sess; db := d |}
     | Some user =>
         ok <- match password with
               | Some pw => Returns (compare pw (User.passwordHash user))
               | None => Throws IllegalArguments
               end ;;
         if negb ok then
           Returns {| response := Redirect "/signin"; session := sess;
                      db := d |}
         else
           Returns {| response := Redirect "/home";
                      session := Some {| id := User._id user;
                                         email := User.email user;
                                         name := User.name user |};
                      db := d |}
     end)
    (fun err => {| response := Redirect "/signin"; session := sess; db := d |}).

(** [POST /logout] *)
Definition post_logout : Outcome :=
  {| response := Redirect "/home"; session := None; db := d |}.

(** [GET /admin/books] *)
Definition get_admin_books : Outcome :=
  {| response := render sess "Manage Books" "admin-books"
                   (BooksData (Book.find_sorted (books d)));
     session := sess; db := d |}.

Definition bookFields (body : Body) : Book.fields :=
  {| Book.f_title := field "title" body;
     Book.f_description := field "description" body;
     Book.f_image := field "image" body |}.

(** [POST /admin/books] *)
Definition post_admin_books (body : Body) : Outcome :=
  tryCatch
    (r <- Book.create env (bookFields body) (books d) ;;
     Returns {| response := Redirect "/admin/books"; session := sess;
                db := setBooks d (snd r) |})
    (fun err => {| response := Send 500 "Error creating book";
                   session := sess; db := d |}).

(** [POST /admin/books/:id/edit] *)
Definition post_admin_books_edit (idp : IdParam) (body : Body) : Outcome :=
  tryCatch
    (r <- Book.findByIdAndUpdate idp (bookFields body) (books d) ;;
     Returns {| response := Redirect "/admin/books"; session := sess;
                db := setBooks d (snd r) |})
    (fun err => {| response := Send 500 "Error updating book";
                   session := sess; db := d |}).

(** [POST /admin/books/:id/delete] *)
Definition post_admin_books_delete (idp : IdParam) : Outcome :=
  tryCatch
    (r <- Book.findByIdAndDelete idp (books d) ;;
     Returns {| response := Redirect "/admin/books"; session := sess;
                db := setBooks d (snd r) |})
    (fun err => {| response := Send 500 "Error deleting book";
                   session := sess; db := d |}).

(** [GET /api/articles] *)
Definition get_api_articles : Outcome :=
  {| response := Json (Article.find_sorted (articles d));
     session := sess; db := d |}.

End Handlers.

(** The routes of the application. *)
Inductive Request :=
| GET_root
| GET_home
| GET_about
| GET_archive
| GET_articles
| GET_books
| GET_write
| POST_write (body : Body)
| GET_signin
| GET_signup
| POST_signup (body : Body)
| POST_signin (body : Body)
| POST_logout
| GET_admin_books
| POST_admin_books (body : Body)
| POST_admin_books_edit (idp : IdParam) (body : Body)
| POST_admin_books_delete (idp : IdParam)
| GET_api_articles.

Definition app {B : Bcrypt} (env : Env) (sess : Session) (d : Db)
  (req : Request) : Outcome :=
  match req with
  | GET_root => get_root sess d
  | GET_home => get_page sess d "Home" "home"
  | GET_about => get_page sess d "About" "about"
  | GET_archive => get_page sess d "Archive" "archive"
  | GET_articles => get_articles sess d
  | GET_books => get_books sess d
  | GET_write => get_page sess d "Write" "write"
  | POST_write body => post_write env sess d body
  | GET_signin => get_page sess d "Sign In / Sign Up" "signin"
  | GET_signup => {| response := Redirect "/signin"; session := sess; db := d |}
  | POST_signup body => post_signup env sess d body
  | POST_signin body => post_signin sess d body
  | POST_logout => post_logout d
  | GET_admin_books => get_admin_books sess d
  | POST_admin_books body => post_admin_books env sess d body
  | POST_admin_books_edit idp body => post_admin_books_edit sess d idp body
  | POST_admin_books_delete idp => post_admin_books_delete sess d idp
  | GET_api_articles => get_api_articles sess d
  end.

(** The store after the application has handled a sequence of requests,
    each with its own environment and session. *)
Fixpoint dbAfter {B : Bcrypt} (reqs : list (Env * Session * Request)) (d : Db)
  : Db :=
  match reqs with
  | [] => d
  | (env, sess, req) :: rest => dbAfter rest (db (app env sess d req))
  end.

(** The four routes under [/admin/books]. *)
Definition isAdminBookRoute (req : Request) : bool :=
  match req with
  | GET_admin_books | POST_admin_books _
  | POST_admin_books_edit _ _ | POST_admin_books_delete _ => true
  | _ => false
  end.

(** The book listing and the article listing a response carries. *)
Definition listedBooks (r : Response) : option (list Book.doc) :=
  match r with
  | Render v =>
      match data v with
      | BooksData bs => Some bs
      | _ => None
      end
  | _ => None
  end.

Definition listedArticles (r : Response) : option (list Article.doc) :=
  match r with
  | Render v =>
      match data v with
      | CommunityArticles ars => Some ars
      | _ => None
      end
  | Json ars => Some ars
  | _ => None
  end.

(** In every pair of adjacent records the earlier one is at least as
    recent as the later one. *)
Definition Descending {A : Type} (key : A -> Z) (l : list A) : Prop :=
  forall i a b,
    nth_error l i = Some a -> nth_error l (S i) = Some b ->
    (key a >= key b)%Z.

(** A response lists the stored records, newest first. *)
Definition ListsNewestFirst {A : Type} (key : A -> Z) (stored : list A)
  (listed : option (list A)) : Prop :=
  exists l, listed = Some l /\ Permutation stored l /\ Descending key l.

(** A field that is missing or empty. *)
Definition blank (x : option string) : Prop := x = None \/ x = Some "".

(** [p] is the first [n] characters of [s] (all of [s] when shorter). *)
Definition FirstChars (n : nat) (p s : string) : Prop :=
  (exists rest, s = p ++ rest) /\
  String.length p = Nat.min n (String.length s).

(** The response reports a missing resource. *)
Definition NotFound (r : Response) : Prop := status r = 404.

(** The response is an error response. *)
Definition isError (r : Response) : bool := Nat.leb 400 (status r).

(** A response with the middleware's [currentUser] local left out. *)
Definition withoutCurrentUser (r : Response) : Response :=
  match r with
  | Render v =>
      Render {| currentUser := None; pageTitle := pageTitle v;
                page := page v; data := data v |}
  | _ => r
  end.

End Server.

(** ** Sample data *)

Module Samples.
Import Mongoose Server.

(** A stand-in for bcrypt that computes: the hash is the salt, a
    separator and the password; [compare] checks the part after the
    first separator. *)
Fixpoint afterDollar (h : string) : option string :=
  match h with
  | EmptyString => None
  | String c t => if Ascii.eqb c "$" then Some t else afterDollar t
  end.

Fixpoint noDollar (s : string) : bool :=
  match s with
  | EmptyString => true
  | String c t => negb (Ascii.eqb c "$") && noDollar t
  end.

Definition sampleHash (rounds : nat) (salt pw : string) : string :=
  (if noDollar salt then salt else "") ++ "$" ++ pw.

Definition sampleCompare (pw h : string) : bool :=
  match afterDollar h with
  | Some p => p =? pw
  | None => false
  end.

#[export] Instance sampleBcrypt : Bcrypt :=
  {| hash := sampleHash; compare := sampleCompare |}.

Definition env0 : Env := {| now := 1700000000000%Z; newId := 42%N; salt := "s4lt" |}.

Definition ada : User.doc :=
  {| User._id := 1%N; User.name := Some "Ada"; User.email := "ada@example.org";
     User.passwordHash := "s4lt$lovelace" |}.

Definition nagomi : Book.doc :=
  {| Book._id := 10%N; Book.title := "The Way of Nagomi";
     Book.description := "Effortless balance."; Book.image := None;
     Book.createdAt := 1600000000000%Z |}.

Definition babel : Book.doc :=
  {| Book._id := 11%N; Book.title := "After Babel";
     Book.description := "Language and culture."; Book.image := None;
     Book.createdAt := 1650000000000%Z |}.

Definition db0 : Db :=
  {| users := [ada]; books := [nagomi; babel]; articles := [] |}.

Definition adaSession : SessionUser :=
  {| id := 1%N; email := "ada@example.org"; name := Some "Ada" |}.

Definition signupGrace : Body :=
  [("name", "Grace"); ("email", "grace@example.org"); ("password", "hopper")].

Definition signupAda : Body :=
  [("name", "Ada"); ("email", "ada@example.org"); ("password", "other")].

Definition essay : Body :=
  [("title", "On reading"); ("content", "Books left unread.")].

Definition essayNoTitle : Body :=
  [("title", ""); ("content", "Books left unread.")].

Definition bookNoDescription : Body := [("title", "Untitled")].

Definition bookEdit : Body :=
  [("title", "Renamed"); ("description", "New text."); ("image", "")].

(** A client-side item whose title and author run together into the
    query when no space separates them. *)
Definition zenBob : Archive.Item :=
  {| Archive.title := Some "Zen"; Archive.excerpt := None;
     Archive.author := Some "Bob"; Archive.tag := Some "Culture" |}.

Definition zenbobQuery : Archive.FilterState :=
  {| Archive.query := "zenbob"; Archive.activeCategory := "All" |}.

End Samples.

(** ** Server side: properties of the store and of a signin *)

Module Store.
Import Mongoose Server.

(** No two stored users share an email. *)
Definition UniqueEmails (d : Db) : Prop := NoDup (map User.email (users d)).

(** Every stored user has an email and a password hash. *)
Definition UsersComplete (d : Db) : Prop :=
  Forall (fun u => User.email u <> "" /\ User.passwordHash u <> "") (users d).

(** No two stored books share an [_id]. *)
Definition UniqueBookIds (d : Db) : Prop := NoDup (map Book._id (books d)).

(** The session, when it has a user, holds the id, email and name of a
    stored user. *)
Definition SessionOfStore (sess : Session) (d : Db) : Prop :=
  forall su, sess = Some su ->
    exists u, In u (users d) /\
      su = {| id := User._id u; email := User.email u; name := User.name u |}.

(** The credentials of [body] verify against the user [u] that
    [User.findOne] returns for the submitted email. *)
Definition Verifies {B : Bcrypt} (body : Body) (d : Db) (u : User.doc) : Prop :=
  exists pw,
    User.findOne (field "email" body) (users d) = Some u /\
    field "password" body = Some pw /\
    compare pw (User.passwordHash u) = true.

(** [l'] extends [l] at its end. *)
Definition Extends {A : Type} (l l' : list A) : Prop :=
  exists more, l' = (l ++ more)%list.

(** The routes that write to each collection. *)
Definition writesUsers (req : Request) : bool :=
  match req with POST_signup _ => true | _ => false end.

Definition writesArticles (req : Request) : bool :=
  match req with POST_write _ => true | _ => false end.

Definition writesBooks (req : Request) : bool :=
  match req with
  | POST_admin_books _ | POST_admin_books_edit _ _
  | POST_admin_books_delete _ => true
  | _ => false
  end.

(** The routes that touch the session. *)
Definition writesSession (req : Request) : bool :=
  match req with
  | POST_signup _ | POST_signin _ | POST_logout => true
  | _ => false
  end.

End Store.

(** ** Server side: what an edit or a delete does to the book collection *)

Module BookStore.
Import Mongoose.

(** [bs] is [pre ++ b :: post] where [b] is the first book with the id
    [oid]. *)
Definition FirstWithId (oid : ObjectId) (b : Book.doc)
  (pre post bs : list Book.doc) : Prop :=
  bs = (pre ++ b :: post)%list /\
  Book._id b = oid /\
  forall x, In x pre -> Book._id x <> oid.

(** Every stored book is older than [t]. *)
Definition AllOlder {A : Type} (key : A -> Z) (t : Z) (l : list A) : Prop :=
  forall x, In x l -> (key x < t)%Z.

End BookStore.

(** ** Client side: the HTML helpers of [oop.js] / [bundle.js] *)

Module Html.

(** The double quote, as a code unit. *)
Definition dquote : ascii := "034"%char.

(** [s.replace(/c/g, by)] for a one-character pattern. *)
Fixpoint replaceChar (c : ascii) (by_ : string) (s : string) : string :=
  match s with
  | EmptyString => EmptyString
  | String x t =>
      if Ascii.eqb x c then by_ ++ replaceChar c by_ t
      else String x (replaceChar c by_ t)
  end.

(** [escapeHtml(unsafe)]: the empty text for [undefined], else the five
    replacements in the order of the source. *)
Definition escapeHtml (unsafe : option string) : string :=
  match unsafe with
  | None => ""
  | Some s =>
      replaceChar "'" "&#039;"
        (replaceChar dquote "&quot;"
           (replaceChar ">" "&gt;"
              (replaceChar "<" "&lt;"
                 (replaceChar "&" "&amp;" s))))
  end.

(** The entity, or the character itself, that stands for one character
    of the input in the output of [escapeHtml]. *)
Definition escapeChar (c : ascii) : string :=
  if Ascii.eqb c "&" then "&amp;"
  else if Ascii.eqb c "<" then "&lt;"
  else if Ascii.eqb c ">" then "&gt;"
  else if Ascii.eqb c dquote then "&quot;"
  else if Ascii.eqb c "'" then "&#039;"
  else String c "".

Fixpoint escapeEach (s : string) : string :=
  match s with
  | EmptyString => EmptyString
  | String c t => escapeChar c ++ escapeEach t
  end.

(** Reading the five entities back. *)
Fixpoint unescapeHtml (s : string) : string :=
  match s with
  | String "&" (String "a" (String "m" (String "p" (String ";" t)))) =>
      String "&" (unescapeHtml t)
  | String "&" (String "l" (String "t" (String ";" t))) =>
      String "<" (unescapeHtml t)
  | String "&" (String "g" (String "t" (String ";" t))) =>
      String ">" (unescapeHtml t)
  | String "&" (String "q" (String "u" (String "o" (String "t" (String ";" t))))) =>
      String dquote (unescapeHtml t)
  | String "&" (String "#" (String "0" (String "3" (String "9" (String ";" t))))) =>
      String "'" (unescapeHtml t)
  | String c t => String c (unescapeHtml t)
  | EmptyString => EmptyString
  end.


Fixpoint allChars (p : ascii -> bool) (s : string) : bool :=
  match s with
  | EmptyString => true
  | String c t => p c && allChars p t
  end.

(** The SyntaxCharacters of a regular expression: the class
    [[.*+?^${}()|[\]\\]] of [escapeRegExp]. *)
Definition isSyntaxChar (c : ascii) : bool :=
  existsb (Ascii.eqb c)
    ["."; "*"; "+"; "?"; "^"; "$"; "{"; "}"; "("; ")"; "|"; "["; "]"; "\"]%char.

(** [escapeRegExp(string)]: a backslash before every syntax character. *)
Fixpoint escapeRegExp (s : string) : string :=
  match s with
  | EmptyString => EmptyString
  | String c t =>
      if isSyntaxChar c then String "\" (String c (escapeRegExp t))
      else String c (escapeRegExp t)
  end.

(** The text a pattern matches when it is made of pattern characters and
    escaped syntax characters only; [None] when the pattern has a syntax
    character that is not escaped, or ends in a lone backslash. *)
Fixpoint literalOfPattern (p : string) : option string :=
  match p with
  | EmptyString => Some EmptyString
  | String "\" (String c t) =>
      if isSyntaxChar c then option_map (String c) (literalOfPattern t)
      else None
  | String c t =>
      if isSyntaxChar c then None
      else option_map (String c) (literalOfPattern t)
  end.

(** Two code units that the [i] flag of a regular expression identifies. *)
Definition sameLetter (a b : ascii) : bool :=
  Ascii.eqb (JS.lowerChar a) (JS.lowerChar b).

(** The part of [text] that the literal [q] matches at its start, letter
    case ignored. *)
Fixpoint matchStart (q text : string) : option string :=
  match q, text with
  | EmptyString, _ => Some EmptyString
  | String a q', String b t =>
      if sameLetter a b then option_map (String b) (matchStart q' t) else None
  | String _ _, EmptyString => None
  end.

Definition openSpan : string :=
  "<span class=" ++ String dquote "highlight" ++ String dquote ">".

Definition closeSpan : string := "</span>".

(** [text.replace(re, '<span class="highlight">$1</span>')] for the
    global, case-insensitive pattern of a literal [q]: the matches are
    taken from left to right and do not overlap.  [skip] counts the
    characters of the current match still to pass over. *)
Fixpoint replaceMatches (q : string) (skip : nat) (text : string) : string :=
  match text with
  | EmptyString => EmptyString
  | String c rest =>
      match skip with
      | S k => replaceMatches q k rest
      | O =>
          match matchStart q text with
          | Some m =>
              openSpan ++ m ++ closeSpan
              ++ replaceMatches q (pred (String.length q)) rest
          | None => String c (replaceMatches q 0 rest)
          end
      end
  end.

(** The rest of [text] after its first [n] characters. *)
Fixpoint dropChars (n : nat) (text : string) : string :=
  match n, text with
  | O, _ => text
  | S k, String _ t => dropChars k t
  | S _, EmptyString => EmptyString
  end.

(** [highlightMatches(text, query)].  The pattern is the escaped query in
    a capturing group; read as a pattern, the escaped query is a literal,
    so the last branch stands for no run of the source. *)
Definition highlightMatches (text query : string) : string :=
  if query =? "" then text
  else
    match literalOfPattern (escapeRegExp query) with
    | Some q => replaceMatches q 0 text
    | None => text
    end.

(** [out] is [text] with some occurrences of [q], letter case ignored,
    wrapped in the highlight span and nothing else changed. *)
Inductive Marks (q : string) : string -> string -> Prop :=
| Marks_end : Marks q "" ""
| Marks_char c text out :
    Marks q text out -> Marks q (String c text) (String c out)
| Marks_span m text out :
    JS.toLowerCase m = JS.toLowerCase q -> m <> "" ->
    Marks q text out ->
    Marks q (m ++ text) (openSpan ++ m ++ closeSpan ++ out).

End Html.

(** ** Client side: the search box and the subscribe buttons *)

Module ArchiveUI.
Import Archive.

Definition isLower (n : N) : bool :=
  (((97 <=? n) && (n <=? 122)) ||
   ((224 <=? n) && (n <=? 254) && negb (n =? 247)))%N.

(** [c.toUpperCase()] for a one-character text [c].  The capital of the
    sharp s is the two letters SS; the capitals of the micro sign (181)
    and of y with diaeresis (255) are code units above 255, which the
    search box never asks for: it capitalises the first letter of a
    category word. *)
Definition toUpperCase1 (c : ascii) : string :=
  let n := N_of_ascii c in
  if isLower n then String (ascii_of_N (n - 32)) ""
  else if (n =? 223)%N then "SS"
  else String c "".

(** [q.charAt(0).toUpperCase() + q.slice(1)]. *)
Definition capitalize (q : string) : string :=
  match q with
  | EmptyString => EmptyString
  | String c t => toUpperCase1 c ++ t
  end.

Definition categoryWords : list string :=
  ["all"; "culture"; "food"; "business"; "technology"].

(** [onSearch(e)], with [value] the text of the search box. *)
Definition onSearch (value : string) (this : FilterState) : FilterState :=
  let q := JS.trim value in
  let lower := JS.toLowerCase q in
  {| query := q;
     activeCategory :=
       if existsb (String.eqb lower) categoryWords
       then (if q =? "" then "All" else capitalize q)
       else "All" |}.

(** [onClear()]. *)
Definition onClear (this : FilterState) : FilterState :=
  {| query := ""; activeCategory := "All" |}.

(** The items [renderFeed] shows after an event. *)
Definition shown (this : FilterState) (items : list Item) : list Item :=
  filterItems this items.

(** An item has the word in its tag and in its text. *)
Definition InTagAndText (w : string) (item : Item) : Prop :=
  JS.SubstringCI w (JS.orElse (tag item) "") /\
  JS.SubstringCI w (combined item).

(** An item has the text, when there is one to look for. *)
Definition InText (w : string) (item : Item) : Prop :=
  w <> "" -> JS.SubstringCI w (combined item).

End ArchiveUI.

Module Subscriptions.

(** [localStorage]: the stored texts by key. *)
Definition Storage := list (string * string).

Fixpoint getItem (k : string) (ls : Storage) : option string :=
  match ls with
  | [] => None
  | (k', v) :: rest => if k' =? k then Some v else getItem k rest
  end.

Definition removeItem (k : string) (ls : Storage) : Storage :=
  filter (fun kv => negb (fst kv =? k)) ls.

Definition setItem (k v : string) (ls : Storage) : Storage :=
  (k, v) :: removeItem k ls.

(** What the handlers set on a subscribe button. *)
Record Button := {
  textContent : string;
  background : string;
  color : string
}.

Definition subscribedKey (id : string) : string := "subscribed_" ++ id.

Definition subscribedLook : Button :=
  {| textContent := "Subscribed"; background := "#ffda79"; color := "#111" |}.

Definition unsubscribedLook : Button :=
  {| textContent := "Subscribe"; background := ""; color := "" |}.

(** [ArchiveManager.toggleSubscribe(id, button)]: the storage and the
    button afterwards. *)
Definition toggleSubscribe (id : string) (ls : Storage) : Storage * Button :=
  let key := subscribedKey id in
  let now := JS.truthy (getItem key ls) in
  if now then (removeItem key ls, unsubscribedLook)
  else (setItem key "1" ls, subscribedLook).

(** The look [renderFeed] gives the button of an item. *)
Definition renderedLook (id : string) (ls : Storage) : Button :=
  if JS.truthy (getItem (subscribedKey id) ls) then subscribedLook
  else unsubscribedLook.

(** The reader is subscribed to [id]. *)
Definition subscribed (id : string) (ls : Storage) : bool :=
  JS.truthy (getItem (subscribedKey id) ls).

(** One run of the click listener that [renderArticlesPage] adds to
    the container: the storage and the text of the button afterwards. *)
Definition pageToggle (id : string) (ls : Storage) : Storage * string :=
  let key := subscribedKey id in
  if JS.truthy (getItem key ls) then (removeItem key ls, "Subscribe")
  else (setItem key "1" ls, "Subscribed").

(** The container of the articles page: the number of click listeners
    added to it.  Every call of [renderArticlesPage] empties the
    container and adds one more listener, a new function each time. *)
Record ArticlesPage := { listeners : nat }.

Definition renderArticlesPage (page : ArticlesPage) : ArticlesPage :=
  {| listeners := S (listeners page) |}.

(** The page after [n] calls of [renderArticlesPage] on a fresh
    container: the first render and one for each input to the search box
    ([json.js]). *)
Fixpoint rendered (n : nat) : ArticlesPage :=
  match n with
  | O => {| listeners := 0 |}
  | S k => renderArticlesPage (rendered k)
  end.

(** A click on the subscribe button of [id]: every listener runs. *)
Fixpoint runListeners (n : nat) (id : string) (ls : Storage) : Storage :=
  match n with
  | O => ls
  | S k => runListeners k id (fst (pageToggle id ls))
  end.

Definition click (page : ArticlesPage) (id : string) (ls : Storage) : Storage :=
  runListeners (listeners page) id ls.

End Subscriptions.

(** ** Client side: the page searches of [json.js] *)

Module PageSearch.

(** A text concatenated with [+]: [undefined] reads "undefined". *)
Definition plusText (x : option string) : string :=
  match x with
  | Some s => s
  | None => "undefined"
  end.

(** The filter of the search box on the articles page. *)
Definition searchArticles (value : string) (articles : list Archive.Item)
  : list Archive.Item :=
  let q := JS.toLowerCase (JS.trim value) in
  filter (fun a =>
            JS.includes
              (JS.toLowerCase
                 (plusText (Archive.title a) ++ " " ++
                  JS.orElse (Archive.excerpt a) "" ++ " " ++
                  JS.orElse (Archive.author a) ""))
              q)
    articles.

(** A book of [articles.json]. *)
Record BookItem := {
  title : option string;
  description : option string
}.

(** The filter of the search box on the books page. *)
Definition searchBooks (value : string) (books : list BookItem) : list BookItem :=
  let q := JS.toLowerCase (JS.trim value) in
  filter (fun b =>
            JS.includes
              (JS.toLowerCase
                 (plusText (title b) ++ " " ++ JS.orElse (description b) ""))
              q)
    books.

(** [l'] is [l] with some elements left out. *)
Inductive Sublist {A : Type} : list A -> list A -> Prop :=
| Sublist_nil : Sublist [] []
| Sublist_keep x l l' : Sublist l' l -> Sublist (x :: l') (x :: l)
| Sublist_drop x l l' : Sublist l' l -> Sublist l' (x :: l).

End PageSearch.

(** ** Client side: the review key of a book card ([bundle.js]) *)

Module BookCards.




End BookCards.

(** ** Facts about the string builtins *)

Module JSFacts.
Import JS.

Lemma append_empty_r (s : string) : s ++ "" = s.
Proof. induction s as [|c t IH]; simpl; [reflexivity | now rewrite IH]. Qed.

Lemma append_assoc (a b c : string) : (a ++ b) ++ c = a ++ b ++ c.
Proof. induction a as [|x a IH]; simpl; [reflexivity | now rewrite IH]. Qed.

Lemma prefix_iff (a s : string) :
  prefix a s = true <-> exists post, s = a ++ post.
Proof.
  revert s. induction a as [|c a IH]; intros s.
  - split; [intros _; now exists s | intros _; now destruct s].
  - destruct s as [|d s]; simpl.
    + split; [discriminate | intros [post H]; discriminate].
    + destruct (ascii_dec c d) as [->|ne].
      * rewrite IH. split; intros [post H]; exists post.
        -- now rewrite H.
        -- now injection H.
      * split; [discriminate |].
        intros [post H]. injection H as H1 _. congruence.
Qed.

Lemma includes_iff (s sub : string) :
  includes s sub = true <-> Substring sub s.
Proof.
  unfold Substring. induction s as [|c s IH].
  - cbn [includes]. rewrite orb_false_r, prefix_iff. split.
    + intros [post H]. now exists "", post.
    + intros [pre [post H]]. destruct pre; [now exists post | discriminate].
  - cbn [includes]. rewrite orb_true_iff, prefix_iff, IH. split.
    + intros [[post H] | [pre [post H]]].
      * now exists "", post.
      * exists (String c pre), post. simpl. now rewrite H.
    + intros [[|d pre] [post H]].
      * left. now exists post.
      * right. simpl in H. injection H as _ H. now exists pre, post.
Qed.

Lemma toLowerCase_empty (s : string) : toLowerCase s = "" <-> s = "".
Proof. destruct s; simpl; split; intros H; try reflexivity; discriminate. Qed.

Lemma eqb_false_iff (a b : string) : (a =? b) = false <-> a <> b.
Proof. destruct (String.eqb_spec a b); split; congruence. Qed.

(** Every text contains the empty text. *)
Lemma Substring_empty (s : string) : Substring "" s.
Proof. now exists "", s. Qed.

Lemma Substring_of_empty (sub : string) : Substring sub "" -> sub = "".
Proof.
  intros [pre [post H]]. destruct pre; [|discriminate].
  destruct sub; [reflexivity | discriminate].
Qed.

End JSFacts.

(** ** The archive filter *)

Module ArchiveFacts.
Import JS JSFacts Archive.

Lemma filter_Selects {A : Type} (f : A -> bool) (P : A -> Prop) (l : list A) :
  (forall x, f x = true <-> P x) -> Selects P l (filter f l).
Proof.
  intros Hf. induction l as [|x l IH]; simpl.
  - constructor.
  - destruct (f x) eqn:E.
    + apply Selects_keep; [now apply Hf | exact IH].
    + apply Selects_drop; [|exact IH].
      intros HP. apply Hf in HP. congruence.
Qed.

(** Every element of the list that satisfies [P] is selected. *)
Lemma Selects_complete {A : Type} (P : A -> Prop) (l r : list A) :
  Selects P l r -> forall x, In x l -> P x -> In x r.
Proof.
  induction 1 as [|y l r Hy _ IH|y l r Hy _ IH]; intros x Hin HP.
  - destruct Hin.
  - destruct Hin as [->|Hin]; [now left | right; now apply IH].
  - destruct Hin as [->|Hin]; [contradiction | now apply IH].
Qed.

Lemma Selects_sound {A : Type} (P : A -> Prop) (l r : list A) :
  Selects P l r -> forall x, In x r -> In x l /\ P x.
Proof.
  induction 1 as [|y l r Hy _ IH|y l r Hy _ IH]; intros x Hin.
  - destruct Hin.
  - destruct Hin as [->|Hin]; [split; [now left | exact Hy] |].
    destruct (IH x Hin). split; [now right | assumption].
  - destruct (IH x Hin). split; [now right | assumption].
Qed.

Lemma categoryRejects_iff (this : FilterState) (item : Item) :
  categoryRejects this item = false <-> categoryOK this item.
Proof.
  unfold categoryRejects, categoryOK, SubstringCI.
  destruct (String.eqb_spec (activeCategory this) "") as [E|NE]; simpl.
  - rewrite E. split; [intros _ _; apply Substring_empty | reflexivity].
  - destruct (String.eqb_spec (activeCategory this) "All") as [E|NA]; simpl.
    + split; [intros _ H; contradiction | reflexivity].
    + assert (NL : toLowerCase (activeCategory this) <> "")
        by (now rewrite toLowerCase_empty).
      destruct (tag item) as [t|]; simpl.
      * destruct (String.eqb_spec t "") as [->|NT]; simpl.
        -- split; [discriminate |].
           intros H. specialize (H NA). apply Substring_of_empty in H.
           contradiction.
        -- unfold orElse. destruct (String.eqb_spec t ""); [congruence |].
           rewrite negb_false_iff, includes_iff. split; auto.
      * split; [discriminate |].
        intros H. specialize (H NA). apply Substring_of_empty in H.
        contradiction.
Qed.

Lemma keeps_iff (this : FilterState) (item : Item) :
  keeps this (toLowerCase (trim (query this))) item = true
  <-> matches this item.
Proof.
  unfold keeps, matches, queryOK, SubstringCI.
  destruct (categoryRejects this item) eqn:C.
  - split; [discriminate |]. intros [H _].
    apply categoryRejects_iff in H. congruence.
  - apply categoryRejects_iff in C.
    destruct (String.eqb_spec (toLowerCase (trim (query this))) "") as [E|NE].
    + apply (proj1 (toLowerCase_empty _)) in E. split; [|reflexivity].
      intros _. split; [exact C | intros H; congruence].
    + rewrite includes_iff. split.
      * intros H. split; [exact C | intros _; exact H].
      * intros [_ H]. apply H. intros E. apply NE. now rewrite E.
Qed.

(** [filterItems] selects exactly the items that pass the category test
    and whose space-joined title, excerpt and author contain the query. *)
Lemma filterItems_Selects (this : FilterState) (items : list Item) :
  Selects (matches this) items (filterItems this items).
Proof. apply filter_Selects. intros x. apply keeps_iff. Qed.

(** A code unit that lowers to a small ASCII letter is that letter or
    its capital, hence no white space. *)
Lemma lowerChar_letter (c l : ascii) :
  lowerChar c = l ->
  (97 <=? N_of_ascii l)%N && (N_of_ascii l <=? 122)%N = true ->
  isSpace c = false /\ (c = l \/ lowerChar c <> c).
Proof.
  intros <-.
  destruct c as [[|] [|] [|] [|] [|] [|] [|] [|]]; vm_compute;
    intros H; try discriminate H; split; try reflexivity;
    try (left; reflexivity); right; discriminate.
Qed.

(** A three-letter query that lowers to "zen" has no white space. *)
Lemma zen_query_trim (q : string) :
  toLowerCase q = "zen" -> toLowerCase (trim q) = "zen".
Proof.
  destruct q as [|a [|b [|c [|? ?]]]]; try discriminate.
  simpl. intros H. injection H as Ha Hb Hc.
  destruct (lowerChar_letter a _ Ha eq_refl) as [Sa _].
  destruct (lowerChar_letter b _ Hb eq_refl) as [Sb _].
  destruct (lowerChar_letter c _ Hc eq_refl) as [Sc _].
  unfold trim. cbn [trimStart]. rewrite Sa. cbn [trimEnd]. rewrite Sc.
  cbn [toLowerCase]. now rewrite Ha, Hb, Hc.
Qed.

(** C6, as the specification words it, fails.  With the query "zenbob"
    and the category 'All', the item titled "Zen" by "Bob" has the query
    in the concatenation "ZenBob" of its title, excerpt and author, yet
    [filterItems] returns no item: it searches "zen  bob". *)
Lemma filterItems_concatenation_counterexample :
  matches_spec Samples.zenbobQuery Samples.zenBob /\
  filterItems Samples.zenbobQuery [Samples.zenBob] = [] /\
  ~ Selects (matches_spec Samples.zenbobQuery) [Samples.zenBob]
      (filterItems Samples.zenbobQuery [Samples.zenBob]).
Proof.
  assert (M : matches_spec Samples.zenbobQuery Samples.zenBob).
  { split.
    - intros H. now contradiction H.
    - intros _. now exists "", "". }
  split; [exact M |]. split; [reflexivity |].
  intros S.
  apply (Selects_complete _ _ _ S Samples.zenBob (or_introl eq_refl)) in M.
  exact M.
Qed.

(** C6, amended.  For every list of items and every filter state,
    [filterItems] returns exactly the subsequence of the items that
    (a) when the active category is not 'All', have a tag containing the
    category as a case-insensitive substring, and (b) when the trimmed
    query is non-empty, contain it as a case-insensitive substring of
    title, excerpt and author joined by single spaces.  On the items
    Zen/Culture and Food Diary/Food, the category "Food" yields exactly
    the second item, and the query "zen" in any letter case yields
    exactly the first. *)
Theorem filterItems_spec :
  (forall (this : FilterState) (items : list Item),
      Selects (matches this) items (filterItems this items)) /\
  filterItems {| query := ""; activeCategory := "Food" |} [zen; foodDiary]
    = [foodDiary] /\
  filterItems {| query := "Food"; activeCategory := "Food" |} [zen; foodDiary]
    = [foodDiary] /\
  (forall q : string,
      toLowerCase q = "zen" ->
      filterItems {| query := q; activeCategory := "All" |} [zen; foodDiary]
        = [zen]).
Proof.
  split; [exact filterItems_Selects |].
  split; [reflexivity |]. split; [reflexivity |].
  intros q Hq. unfold filterItems. cbn [query].
  rewrite (zen_query_trim q Hq). reflexivity.
Qed.

Lemma filterItems_spec_witness :
  toLowerCase "ZeN" = "zen" /\
  filterItems {| query := "ZeN"; activeCategory := "All" |} [zen; foodDiary]
    = [zen].
Proof.
  split; [reflexivity |].
  apply (proj2 (proj2 (proj2 filterItems_spec))). reflexivity.
Defined.

End ArchiveFacts.

(** ** The mongoose models *)

Module MongooseFacts.
Import Mongoose.

Section SortDesc.
Context {A : Type} (key : A -> Z).
Local Abbreviation before := (Mongoose.before key).

Lemma insertDesc_perm (x : A) (l : list A) :
  Permutation (x :: l) (insertDesc key x l).
Proof.
  induction l as [|y t IH]; simpl.
  - apply Permutation_refl.
  - destruct (key y <=? key x)%Z.
    + apply Permutation_refl.
    + eapply perm_trans; [apply perm_swap | now apply perm_skip].
Qed.

Lemma sortDesc_perm (l : list A) : Permutation l (sortDesc key l).
Proof.
  induction l as [|x l IH]; simpl.
  - apply perm_nil.
  - eapply perm_trans; [apply perm_skip, IH | apply insertDesc_perm].
Qed.

Lemma insertDesc_hd (x y : A) (l : list A) :
  before y x -> HdRel before y l -> HdRel before y (insertDesc key x l).
Proof.
  intros Hyx Hl. destruct l as [|z t]; simpl.
  - now constructor.
  - destruct (key z <=? key x)%Z; constructor; [exact Hyx |].
    now inversion Hl.
Qed.

Lemma insertDesc_sorted (x : A) (l : list A) :
  Sorted before l -> Sorted before (insertDesc key x l).
Proof.
  induction 1 as [|y t St IH Hd]; simpl.
  - repeat constructor.
  - destruct (Z.leb_spec (key y) (key x)) as [Le|Gt].
    + constructor; [now constructor | now constructor].
    + constructor; [exact IH |].
      apply insertDesc_hd; [unfold before; lia | exact Hd].
Qed.

Lemma sortDesc_sorted (l : list A) : Sorted before (sortDesc key l).
Proof.
  induction l as [|x l IH]; simpl;
    [constructor | now apply insertDesc_sorted].
Qed.

End SortDesc.

Lemma validate_ok (required : list (string * option string)) :
  forallb (fun kv => JS.truthy (snd kv)) required = true ->
  validate required = Returns tt.
Proof.
  intros H. unfold validate, missing.
  replace (filter (fun kv => negb (JS.truthy (snd kv))) required)
    with (@nil (string * option string)); [reflexivity |].
  induction required as [|kv r IH]; [reflexivity |].
  simpl in *. apply andb_true_iff in H as [H1 H2].
  rewrite H1. simpl. now apply IH.
Qed.

Lemma validate_missing (required : list (string * option string)) :
  existsb (fun kv => negb (JS.truthy (snd kv))) required = true ->
  exists paths, paths <> [] /\ validate required = Throws (ValidationError paths).
Proof.
  intros H. unfold validate. exists (missing required).
  assert (N : missing required <> []).
  { unfold missing. induction required as [|kv r IH]; [discriminate |].
    simpl in *. destruct (negb (JS.truthy (snd kv))); [discriminate |].
    now apply IH. }
  split; [exact N |]. destruct (missing required); congruence.
Qed.

End MongooseFacts.

(** ** The routes *)

Module ServerFacts.
Import Mongoose MongooseFacts Server.

Lemma Sorted_Descending {A : Type} (key : A -> Z) (l : list A) :
  Sorted (before key) l -> Descending key l.
Proof.
  induction 1 as [|x l Sl IH Hd]; intros i a b Ha Hb.
  - destruct i; discriminate.
  - destruct i as [|i]; simpl in Ha, Hb.
    + injection Ha as <-. destruct l as [|y t]; [discriminate |].
      simpl in Hb. injection Hb as <-.
      inversion Hd as [|? ? Hxy]; subst. unfold before in Hxy. lia.
    + exact (IH i a b Ha Hb).
Qed.

Lemma sortDesc_newest_first {A : Type} (key : A -> Z) (stored : list A) :
  ListsNewestFirst key stored (Some (sortDesc key stored)).
Proof.
  exists (sortDesc key stored). split; [reflexivity |]. split.
  - apply sortDesc_perm.
  - apply Sorted_Descending, sortDesc_sorted.
Qed.

Lemma setBooks_same (d : Db) : setBooks d (books d) = d.
Proof. now destruct d. Qed.

Lemma truthy_text (s : string) : s <> "" -> JS.truthy (Some s) = true.
Proof. intros H. simpl. now destruct (String.eqb_spec s ""). Qed.

Lemma orElse_text (s d : string) : s <> "" -> JS.orElse (Some s) d = s.
Proof. intros H. simpl. now destruct (String.eqb_spec s ""). Qed.

Lemma blank_falsy (x : option string) : blank x <-> JS.truthy x = false.
Proof.
  unfold blank. split.
  - intros [-> | ->]; reflexivity.
  - destruct x as [s|]; [|now left]. simpl.
    destruct (String.eqb_spec s "") as [->|]; [now right | discriminate].
Qed.

(** No user has the email: [findOne] finds nothing. *)
Lemma findOne_absent (e : string) (us : list User.doc) :
  (forall u, In u us -> User.email u <> e) ->
  User.findOne (Some e) us = None.
Proof.
  intros H. simpl. induction us as [|u us IH]; [reflexivity |]. simpl.
  destruct (String.eqb_spec (User.email u) e) as [E|_].
  - exfalso. apply (H u); [now left | exact E].
  - apply IH. intros v Hv. apply H. now right.
Qed.

(** Some user has the email: [findOne] finds one. *)
Lemma findOne_present (e : string) (us : list User.doc) (u : User.doc) :
  In u us -> User.email u = e ->
  exists v, User.findOne (Some e) us = Some v.
Proof.
  intros Hin He. simpl. induction us as [|w us IH]; [destruct Hin |]. simpl.
  destruct (String.eqb_spec (User.email w) e) as [_|N].
  - now exists w.
  - destruct Hin as [->|Hin]; [contradiction | now apply IH].
Qed.

(** After appending a user to a collection without the email,
    [findOne] finds that user. *)
Lemma findOne_appended (us : list User.doc) (u : User.doc) :
  User.findOne (Some (User.email u)) us = None ->
  User.findOne (Some (User.email u)) (us ++ [u])%list = Some u.
Proof.
  simpl. induction us as [|w us IH]; simpl.
  - now rewrite String.eqb_refl.
  - destruct (User.email w =? User.email u); [discriminate | exact IH].
Qed.

(** A user that [findOne] finds stays the one found when the collection
    grows at its end. *)
Lemma findOne_grows (e : option string) (us more : list User.doc) (u : User.doc) :
  User.findOne e us = Some u -> User.findOne e (us ++ more)%list = Some u.
Proof.
  destruct e as [e|]; [|discriminate]. simpl.
  induction us as [|w us IH]; simpl; [discriminate |].
  destruct (User.email w =? e); [auto | exact IH].
Qed.

Lemma findById_absent (oid : ObjectId) (bs : list Book.doc) :
  (forall b, In b bs -> Book._id b <> oid) -> Book.findById oid bs = None.
Proof.
  intros H. unfold Book.findById.
  induction bs as [|b bs IH]; [reflexivity |]. simpl.
  destruct (N.eqb_spec (Book._id b) oid) as [E|_].
  - exfalso. apply (H b); [now left | exact E].
  - apply IH. intros c Hc. apply H. now right.
Qed.

Lemma updateFirst_absent (oid : ObjectId) (f : Book.fields) (bs : list Book.doc) :
  (forall b, In b bs -> Book._id b <> oid) -> Book.updateFirst oid f bs = bs.
Proof.
  intros H. induction bs as [|b bs IH]; [reflexivity |]. simpl.
  destruct (N.eqb_spec (Book._id b) oid) as [E|_].
  - exfalso. apply (H b); [now left | exact E].
  - f_equal. apply IH. intros c Hc. apply H. now right.
Qed.

Lemma removeFirst_absent (oid : ObjectId) (bs : list Book.doc) :
  (forall b, In b bs -> Book._id b <> oid) -> Book.removeFirst oid bs = bs.
Proof.
  intros H. induction bs as [|b bs IH]; [reflexivity |]. simpl.
  destruct (N.eqb_spec (Book._id b) oid) as [E|_].
  - exfalso. apply (H b); [now left | exact E].
  - f_equal. apply IH. intros c Hc. apply H. now right.
Qed.

Lemma substring_FirstChars (n : nat) (s : string) :
  FirstChars n (JS.slice0 n s) s.
Proof.
  unfold FirstChars, JS.slice0. revert n.
  induction s as [|c s IH]; intros [|n]; simpl.
  - split; [now exists "" | reflexivity].
  - split; [now exists "" | reflexivity].
  - split; [now exists (String c s) | reflexivity].
  - destruct (IH n) as [[rest Hr] Hl]. split.
    + exists rest. now rewrite <- Hr.
    + now rewrite Hl.
Qed.

(** *** Signup and signin *)

(** Signup with a non-empty email that no stored user has, and a
    non-empty password. *)
Lemma post_signup_new_email {B : Bcrypt} {L : BcryptLaws B}
  (env : Env) (sess : Session) (d : Db) (body : Body) (e pw : string) :
  field "email" body = Some e -> e <> "" ->
  field "password" body = Some pw -> pw <> "" ->
  User.findOne (Some e) (users d) = None ->
  post_signup env sess d body
    = {| response := Redirect "/home";
         session := Some {| id := newId env; email := e;
                            name := field "name" body |};
         db := setUsers d
                 (users d ++ [{| User._id := newId env;
                                 User.name := field "name" body;
                                 User.email := e;
                                 User.passwordHash := hash 10 (salt env) pw |}])%list
      |}.
Proof.
  intros He Ne Hp Np Hnone.
  unfold post_signup. rewrite He, Hp.
  rewrite (truthy_text e Ne), (truthy_text pw Np). cbn [negb orb].
  rewrite Hnone. cbn [bind]. unfold User.create.
  rewrite validate_ok.
  - cbn [bind tryCatch fst snd User.f_name User.f_email User.f_passwordHash
           User._id User.email User.name].
    rewrite (orElse_text e "" Ne).
    rewrite (orElse_text _ "" (hash_nonempty 10 (salt env) pw)).
    reflexivity.
  - cbn [forallb snd User.f_email User.f_passwordHash].
    rewrite (truthy_text e Ne).
    now rewrite (truthy_text _ (hash_nonempty 10 (salt env) pw)).
Qed.

(** Signin when [findOne] finds a user whose hash verifies. *)
Lemma post_signin_verified {B : Bcrypt}
  (sess : Session) (d : Db) (body : Body) (e pw : string) (u : User.doc) :
  field "email" body = Some e ->
  field "password" body = Some pw ->
  User.findOne (Some e) (users d) = Some u ->
  compare pw (User.passwordHash u) = true ->
  post_signin sess d body
    = {| response := Redirect "/home";
         session := Some {| id := User._id u; email := User.email u;
                            name := User.name u |};
         db := d |}.
Proof.
  intros He Hp Hu Hc. unfold post_signin. rewrite He, Hp, Hu.
  cbn [bind]. now rewrite Hc.
Qed.

(** C1.  For every signup request with a non-empty email and password
    where no stored user has that email, the signup handler persists a
    user whose passwordHash is a salted hash of the password, establishes
    a session holding that user's id, email and name and redirects to
    /home; a subsequent signin request with the same email and password
    establishes the same session and redirects to /home. *)
Theorem signup_then_signin {B : Bcrypt} {L : BcryptLaws B}
  (env : Env) (sess : Session) (d : Db) (body : Body) (e pw : string) :
  field "email" body = Some e -> e <> "" ->
  field "password" body = Some pw -> pw <> "" ->
  (forall u, In u (users d) -> User.email u <> e) ->
  let user := {| User._id := newId env;
                 User.name := field "name" body;
                 User.email := e;
                 User.passwordHash := hash 10 (salt env) pw |} in
  let logged := {| id := newId env; email := e; name := field "name" body |} in
  let d' := setUsers d (users d ++ [user])%list in
  post_signup env sess d body
    = {| response := Redirect "/home"; session := Some logged; db := d' |} /\
  forall (sess' : Session) (body' : Body),
    field "email" body' = Some e ->
    field "password" body' = Some pw ->
    post_signin sess' d' body'
      = {| response := Redirect "/home"; session := Some logged; db := d' |}.
Proof.
  intros He Ne Hp Np Hfresh user logged d'.
  assert (Hnone : User.findOne (Some e) (users d) = None)
    by now apply findOne_absent.
  split.
  - now apply post_signup_new_email.
  - intros sess' body' He' Hp'.
    apply (post_signin_verified sess' d' body' e pw user He' Hp').
    + cbn [users d' setUsers]. change e with (User.email user) at 1.
      now apply findOne_appended.
    + apply compare_hash.
Qed.

(** The stand-in bcrypt of the samples obeys the library's contract. *)
Lemma sampleBcrypt_laws : BcryptLaws Samples.sampleBcrypt.
Proof.
  split.
  - intros rounds salt pw. unfold compare, hash. cbn.
    unfold Samples.sampleCompare, Samples.sampleHash.
    assert (H : forall s t, Samples.noDollar s = true ->
                Samples.afterDollar (s ++ "$" ++ t) = Some t).
    { induction s as [|c s IH]; intros t Hs; [reflexivity |].
      simpl in *. apply andb_true_iff in Hs as [Hc Hs].
      apply negb_true_iff in Hc. rewrite Hc. now apply IH. }
    destruct (Samples.noDollar salt) eqn:E.
    + rewrite (H salt pw E). apply String.eqb_refl.
    + rewrite (H "" pw eq_refl). apply String.eqb_refl.
  - intros rounds salt pw. unfold hash. cbn. unfold Samples.sampleHash.
    destruct (if Samples.noDollar salt then salt else ""); discriminate.
Qed.

Lemma signup_then_signin_witness :
  post_signup (B := Samples.sampleBcrypt)
    Samples.env0 None Samples.db0 Samples.signupGrace
    = {| response := Redirect "/home";
         session := Some {| id := 42%N; email := "grace@example.org";
                            name := Some "Grace" |};
         db := setUsers Samples.db0
                 [Samples.ada;
                  {| User._id := 42%N; User.name := Some "Grace";
                     User.email := "grace@example.org";
                     User.passwordHash := "s4lt$hopper" |}] |} /\
  post_signin (B := Samples.sampleBcrypt) None
    (setUsers Samples.db0
       [Samples.ada;
        {| User._id := 42%N; User.name := Some "Grace";
           User.email := "grace@example.org";
           User.passwordHash := "s4lt$hopper" |}])
    [("email", "grace@example.org"); ("password", "hopper")]
    = {| response := Redirect "/home";
         session := Some {| id := 42%N; email := "grace@example.org";
                            name := Some "Grace" |};
         db := setUsers Samples.db0
                 [Samples.ada;
                  {| User._id := 42%N; User.name := Some "Grace";
                     User.email := "grace@example.org";
                     User.passwordHash := "s4lt$hopper" |}] |}.
Proof.
  assert (Ne : "grace@example.org" <> "") by discriminate.
  assert (Np : "hopper" <> "") by discriminate.
  assert (Hfresh : forall u, In u (users Samples.db0) ->
                     User.email u <> "grace@example.org").
  { intros u [<- | []]. discriminate. }
  destruct (@signup_then_signin Samples.sampleBcrypt sampleBcrypt_laws
              Samples.env0 None Samples.db0 Samples.signupGrace
              "grace@example.org" "hopper" eq_refl Ne eq_refl Np Hfresh)
    as [Hup Hin].
  split; [exact Hup |].
  apply Hin; reflexivity.
Defined.

(** A user that [findOne] finds for an email stays the one found,
    whatever request the application handles next. *)
Lemma app_keeps_user {B : Bcrypt} (env : Env) (sess : Session) (d : Db)
  (req : Request) (e : option string) (u : User.doc) :
  User.findOne e (users d) = Some u ->
  User.findOne e (users (db (app env sess d req))) = Some u.
Proof.
  intros H. destruct req; cbn [app]; try exact H.
  - unfold post_write.
    destruct (negb _ || negb _); [exact H |].
    destruct (if JS.truthy _ then _ else _) as [x|]; [|exact H]. cbn [bind].
    destruct (Article.create _ _ _) as [r|]; exact H.
  - unfold post_signup.
    destruct (negb _ || negb _); [exact H |].
    destruct (User.findOne (field "email" body) (users d)); [exact H |].
    destruct (field "password" body); [|exact H]. cbn [bind].
    unfold User.create. destruct (validate _); [|exact H].
    cbn [bind tryCatch db snd setUsers users].
    now apply findOne_grows.
  - unfold post_signin.
    destruct (User.findOne (field "email" body) (users d)); [|exact H].
    destruct (field "password" body); [|exact H]. cbn [bind].
    destruct (negb _); exact H.
  - unfold post_admin_books. destruct (Book.create _ _ _); exact H.
  - unfold post_admin_books_edit.
    destruct (Book.findByIdAndUpdate _ _ _); exact H.
  - unfold post_admin_books_delete.
    destruct (Book.findByIdAndDelete _ _); exact H.
Qed.

(** C2.  For every signup request whose email is the email of a stored
    user, no user is created (the store is unchanged), the session is left
    as it is, and the response is a redirect to /signin. *)
Theorem signup_existing_email {B : Bcrypt}
  (env : Env) (sess : Session) (d : Db) (body : Body) (e : string)
  (u : User.doc) :
  field "email" body = Some e ->
  In u (users d) -> User.email u = e ->
  post_signup env sess d body
    = {| response := Redirect "/signin"; session := sess; db := d |}.
Proof.
  intros He Hin Hu. unfold post_signup. rewrite He.
  destruct (negb (JS.truthy (Some e)) || negb (JS.truthy (field "password" body)));
    [reflexivity |].
  destruct (findOne_present e (users d) u Hin Hu) as [v ->]. reflexivity.
Qed.

Lemma signup_existing_email_witness :
  post_signup (B := Samples.sampleBcrypt)
    Samples.env0 None Samples.db0 Samples.signupAda
    = {| response := Redirect "/signin"; session := None; db := Samples.db0 |}.
Proof.
  apply (@signup_existing_email Samples.sampleBcrypt Samples.env0 None
           Samples.db0 Samples.signupAda "ada@example.org" Samples.ada).
  - reflexivity.
  - simpl. left. reflexivity.
  - reflexivity.
Defined.

Lemma dbAfter_keeps_user {B : Bcrypt} (reqs : list (Env * Session * Request))
  (d : Db) (e : option string) (u : User.doc) :
  User.findOne e (users d) = Some u ->
  User.findOne e (users (dbAfter reqs d)) = Some u.
Proof.
  revert d. induction reqs as [|[[env sess] req] rest IH]; intros d H.
  - exact H.
  - cbn [dbAfter]. apply IH. now apply app_keeps_user.
Qed.

(** A signin with the credentials of a signup still succeeds after any
    requests handled in between: users are never rewritten or removed, and [findOne] takes the
    first user of an email. *)
Lemma signin_after_signup_and_requests {B : Bcrypt} {L : BcryptLaws B}
  (env : Env) (sess sess' : Session) (d : Db) (body body' : Body)
  (e pw : string) (reqs : list (Env * Session * Request)) :
  field "email" body = Some e -> e <> "" ->
  field "password" body = Some pw -> pw <> "" ->
  (forall u, In u (users d) -> User.email u <> e) ->
  field "email" body' = Some e ->
  field "password" body' = Some pw ->
  let later := dbAfter reqs (db (post_signup env sess d body)) in
  post_signin sess' later body'
    = {| response := Redirect "/home";
         session := session (post_signup env sess d body);
         db := later |}.
Proof.
  intros He Ne Hp Np Hfresh He' Hp' later.
  assert (Hnone : User.findOne (Some e) (users d) = None)
    by now apply findOne_absent.
  pose proof (post_signup_new_email env sess d body e pw He Ne Hp Np Hnone)
    as Hup.
  set (user := {| User._id := newId env; User.name := field "name" body;
                  User.email := e;
                  User.passwordHash := hash 10 (salt env) pw |}) in *.
  assert (Hfound : User.findOne (Some e) (users later) = Some user).
  { unfold later. apply dbAfter_keeps_user. rewrite Hup. cbn [db users setUsers].
    change e with (User.email user) at 1. now apply findOne_appended. }
  rewrite (post_signin_verified sess' later body' e pw user He' Hp' Hfound
             (compare_hash _ _ _)).
  rewrite Hup. reflexivity.
Qed.

(** *** Articles *)

(** C4.  For every POST /write request in which the title or the content
    is missing or empty, no article is created (the store is unchanged)
    and the response status is 400. *)
Theorem write_requires_title_and_content
  (env : Env) (sess : Session) (d : Db) (body : Body) :
  blank (field "title" body) \/ blank (field "content" body) ->
  post_write env sess d body
    = {| response := Send 400 "Title and content are required.";
         session := sess; db := d |} /\
  status (response (post_write env sess d body)) = 400 /\
  articles (db (post_write env sess d body)) = articles d.
Proof.
  intros H.
  assert (E : post_write env sess d body
              = {| response := Send 400 "Title and content are required.";
                   session := sess; db := d |}).
  { unfold post_write.
    destruct H as [H|H]; apply blank_falsy in H; rewrite H.
    - reflexivity.
    - now rewrite orb_true_r. }
  rewrite E. repeat split.
Qed.

Lemma write_requires_title_and_content_witness :
  post_write Samples.env0 None Samples.db0 Samples.essayNoTitle
    = {| response := Send 400 "Title and content are required.";
         session := None; db := Samples.db0 |}.
Proof.
  apply (write_requires_title_and_content Samples.env0 None Samples.db0
           Samples.essayNoTitle).
  left. right. reflexivity.
Defined.

(** C7.  For every POST /write request with non-empty title and content
    and no excerpt supplied (absent or empty), an article is persisted
    whose excerpt is the first 120 characters of the content followed by
    the three characters '...': the article collection after the request
    is the collection before it with that article added at its end. *)
Theorem write_default_excerpt
  (env : Env) (sess : Session) (d : Db) (body : Body) (t c : string) :
  field "title" body = Some t -> t <> "" ->
  field "content" body = Some c -> c <> "" ->
  blank (field "excerpt" body) ->
  exists (a : Article.doc) (first : string),
    post_write env sess d body
      = {| response := Redirect "/articles"; session := sess;
           db := setArticles d (articles d ++ [a])%list |} /\
    Article.title a = t /\ Article.content a = c /\
    Article.excerpt a = first ++ "..." /\
    FirstChars 120 first c /\
    articles (db (post_write env sess d body)) = (articles d ++ [a])%list /\
    users (db (post_write env sess d body)) = users d /\
    books (db (post_write env sess d body)) = books d.
Proof.
  intros Ht Nt Hc Nc Hx.
  set (a := {| Article._id := newId env;
               Article.title := t;
               Article.tag := JS.orElse (field "tag" body) "Article";
               Article.author := JS.orElse (field "author" body) "Anonymous";
               Article.readTime :=
                 JS.orElse (field "readTime" body) "3 min read";
               Article.excerpt := JS.slice0 120 c ++ "...";
               Article.content := c;
               Article.coverImage :=
                 Article.withDefault (field "coverImage" body) "";
               Article.isCommunity := true;
               Article.createdAt := now env |}).
  assert (E : post_write env sess d body
              = {| response := Redirect "/articles"; session := sess;
                   db := setArticles d (articles d ++ [a])%list |}).
  { unfold post_write. rewrite Ht, Hc.
    rewrite (truthy_text t Nt), (truthy_text c Nc). cbn [negb orb].
    apply blank_falsy in Hx. rewrite Hx. cbn [slice120 bind].
    unfold Article.create. rewrite validate_ok.
    - cbn -[JS.slice0 JS.orElse a]. rewrite !orElse_text by assumption.
      reflexivity.
    - cbn [forallb snd Article.f_title Article.f_content].
      now rewrite (truthy_text t Nt), (truthy_text c Nc). }
  exists a, (JS.slice0 120 c).
  split; [exact E |].
  split; [reflexivity |]. split; [reflexivity |]. split; [reflexivity |].
  split; [apply substring_FirstChars |].
  rewrite E. cbn [db articles users books setArticles].
  split; [reflexivity |]. split; reflexivity.
Qed.

Lemma write_default_excerpt_witness :
  exists (a : Article.doc) (first : string),
    post_write Samples.env0 None Samples.db0 Samples.essay
      = {| response := Redirect "/articles"; session := None;
           db := setArticles Samples.db0 (articles Samples.db0 ++ [a])%list |} /\
    Article.title a = "On reading" /\
    Article.content a = "Books left unread." /\
    Article.excerpt a = first ++ "..." /\
    FirstChars 120 first "Books left unread." /\
    articles (db (post_write Samples.env0 None Samples.db0 Samples.essay))
      = (articles Samples.db0 ++ [a])%list /\
    users (db (post_write Samples.env0 None Samples.db0 Samples.essay))
      = users Samples.db0 /\
    books (db (post_write Samples.env0 None Samples.db0 Samples.essay))
      = books Samples.db0.
Proof.
  apply (write_default_excerpt Samples.env0 None Samples.db0 Samples.essay
           "On reading" "Books left unread.").
  - reflexivity.
  - discriminate.
  - reflexivity.
  - discriminate.
  - left. reflexivity.
Defined.

(** *** Book administration *)

(** C10.  For every POST /admin/books request in which the title or the
    description is missing or empty, no book is created and the response
    is the 500 'Error creating book', not a 400: the handler validates
    nothing, the schema's required constraint rejects the write, and the
    catch branch answers. *)
Theorem create_book_requires_title_and_description
  (env : Env) (sess : Session) (d : Db) (body : Body) :
  blank (field "title" body) \/ blank (field "description" body) ->
  (exists paths, paths <> [] /\
     Book.create env (bookFields body) (books d)
       = Throws (ValidationError paths)) /\
  post_admin_books env sess d body
    = {| response := Send 500 "Error creating book";
         session := sess; db := d |} /\
  status (response (post_admin_books env sess d body)) = 500.
Proof.
  intros H.
  assert (V : exists paths, paths <> [] /\
                validate [("title", field "title" body);
                          ("description", field "description" body)]
                  = Throws (ValidationError paths)).
  { apply validate_missing. cbn [existsb snd].
    destruct H as [H|H]; apply blank_falsy in H; rewrite H.
    - reflexivity.
    - cbn [negb]. now rewrite orb_true_r. }
  destruct V as [paths [Np V]].
  assert (C : Book.create env (bookFields body) (books d)
              = Throws (ValidationError paths)).
  { unfold Book.create, bookFields. cbn [Book.f_title Book.f_description].
    now rewrite V. }
  split; [now exists paths |].
  unfold post_admin_books. rewrite C. split; reflexivity.
Qed.

Lemma create_book_requires_title_and_description_witness :
  post_admin_books Samples.env0 None Samples.db0 Samples.bookNoDescription
    = {| response := Send 500 "Error creating book";
         session := None; db := Samples.db0 |}.
Proof.
  apply (create_book_requires_title_and_description Samples.env0 None
           Samples.db0 Samples.bookNoDescription).
  right. left. reflexivity.
Defined.

(** C3, as stated, fails.  No book of the sample store has the id 7, and
    the edit request for that id is answered by the redirect to
    /admin/books, status 302: no NotFound, no error status. *)
Lemma edit_absent_id_counterexample :
  Book.findById 7 (books Samples.db0) = None /\
  response (post_admin_books_edit None Samples.db0 (Id 7) Samples.bookEdit)
    = Redirect "/admin/books" /\
  isError
    (response (post_admin_books_edit None Samples.db0 (Id 7) Samples.bookEdit))
    = false /\
  ~ NotFound
      (response (post_admin_books_edit None Samples.db0 (Id 7) Samples.bookEdit)).
Proof. repeat split. discriminate. Qed.

(** C3, amended.  For every book update request POST /admin/books/:id/edit
    where no book of the collection has the given id, the update is a
    silent no-op: the collection is unchanged, [findByIdAndUpdate] returns
    null without throwing, and the response is the redirect to
    /admin/books. *)
Theorem edit_absent_id
  (sess : Session) (d : Db) (oid : ObjectId) (body : Body) :
  (forall b, In b (books d) -> Book._id b <> oid) ->
  Book.findByIdAndUpdate (Id oid) (bookFields body) (books d)
    = Returns (None, books d) /\
  post_admin_books_edit sess d (Id oid) body
    = {| response := Redirect "/admin/books"; session := sess; db := d |}.
Proof.
  intros H.
  assert (E : Book.findByIdAndUpdate (Id oid) (bookFields body) (books d)
              = Returns (None, books d)).
  { unfold Book.findByIdAndUpdate. cbn [castObjectId bind].
    now rewrite findById_absent, updateFirst_absent. }
  split; [exact E |].
  unfold post_admin_books_edit. rewrite E. cbn [bind tryCatch snd].
  now rewrite setBooks_same.
Qed.

Lemma edit_absent_id_witness :
  post_admin_books_edit None Samples.db0 (Id 7) Samples.bookEdit
    = {| response := Redirect "/admin/books"; session := None;
         db := Samples.db0 |}.
Proof.
  apply (edit_absent_id None Samples.db0 7 Samples.bookEdit).
  intros b [<- | [<- | []]]; discriminate.
Defined.

(** C8.  For every book id not present in the collection,
    POST /admin/books/:id/delete leaves the collection unchanged and
    responds with the redirect to /admin/books. *)
Theorem delete_absent_id (sess : Session) (d : Db) (oid : ObjectId) :
  (forall b, In b (books d) -> Book._id b <> oid) ->
  post_admin_books_delete sess d (Id oid)
    = {| response := Redirect "/admin/books"; session := sess; db := d |}.
Proof.
  intros H. unfold post_admin_books_delete, Book.findByIdAndDelete.
  cbn [castObjectId bind tryCatch snd].
  now rewrite removeFirst_absent, setBooks_same.
Qed.

Lemma delete_absent_id_witness :
  post_admin_books_delete None Samples.db0 (Id 7)
    = {| response := Redirect "/admin/books"; session := None;
         db := Samples.db0 |}.
Proof.
  apply (delete_absent_id None Samples.db0 7).
  intros b [<- | [<- | []]]; discriminate.
Defined.

(** A route parameter that is no ObjectId makes mongoose's cast throw:
    the edit and delete handlers answer 500 and leave the store alone. *)
Lemma malformed_id_is_500 (sess : Session) (d : Db) (text : string)
  (body : Body) :
  post_admin_books_edit sess d (NotAnId text) body
    = {| response := Send 500 "Error updating book"; session := sess; db := d |}
  /\
  post_admin_books_delete sess d (NotAnId text)
    = {| response := Send 500 "Error deleting book"; session := sess; db := d |}.
Proof. split; reflexivity. Qed.

(** C9, as stated, fails for GET /admin/books.  The response to the
    listing request made with Ada's session differs from the response to
    the same request made without a session: the middleware hands the
    session's user to the rendered view as [currentUser]. *)
Lemma admin_listing_session_counterexample :
  isAdminBookRoute GET_admin_books = true /\
  response (app (B := Samples.sampleBcrypt) Samples.env0
              (Some Samples.adaSession) Samples.db0 GET_admin_books)
  <> response (app (B := Samples.sampleBcrypt) Samples.env0
                 None Samples.db0 GET_admin_books).
Proof. split; [reflexivity | discriminate]. Qed.

(** C9, amended.  For every pair of requests to an admin book route that
    are identical except for the session (any session or none), the two
    runs make the same change to the store, leave their session as it
    was, and produce the same response once the [currentUser] local of a
    rendered view is left out; the three POST routes produce the very
    same response.  No authentication check gates these routes. *)
Theorem admin_routes_ignore_session {B : Bcrypt}
  (env : Env) (s1 s2 : Session) (d : Db) (req : Request) :
  isAdminBookRoute req = true ->
  db (app env s1 d req) = db (app env s2 d req) /\
  session (app env s1 d req) = s1 /\
  session (app env s2 d req) = s2 /\
  withoutCurrentUser (response (app env s1 d req))
    = withoutCurrentUser (response (app env s2 d req)) /\
  (req <> GET_admin_books ->
   response (app env s1 d req) = response (app env s2 d req)).
Proof.
  intros H. destruct req; try discriminate H; cbn [app].
  - repeat split. intros N. now contradiction N.
  - unfold post_admin_books.
    destruct (Book.create env (bookFields body) (books d)); repeat split.
  - unfold post_admin_books_edit.
    destruct (Book.findByIdAndUpdate idp (bookFields body) (books d));
      repeat split.
  - unfold post_admin_books_delete.
    destruct (Book.findByIdAndDelete idp (books d)); repeat split.
Qed.

Lemma admin_routes_ignore_session_witness :
  db (app (B := Samples.sampleBcrypt) Samples.env0 (Some Samples.adaSession)
        Samples.db0 (POST_admin_books_delete (Id 10)))
  = db (app (B := Samples.sampleBcrypt) Samples.env0 None
          Samples.db0 (POST_admin_books_delete (Id 10))).
Proof.
  apply (@admin_routes_ignore_session Samples.sampleBcrypt Samples.env0
           (Some Samples.adaSession) None Samples.db0
           (POST_admin_books_delete (Id 10))).
  reflexivity.
Defined.

(** *** Listings *)

(** C5.  Every listing of books (GET /books, GET /admin/books) and of
    articles (GET /articles, GET /api/articles) returns the stored records
    ordered by createdAt in non-increasing order: the list returned is a
    rearrangement of the stored records in which, for every pair of
    adjacent records, the earlier one's createdAt is greater than or equal
    to the later one's. *)
Theorem listings_newest_first {B : Bcrypt} (env : Env) (sess : Session) (d : Db) :
  ListsNewestFirst Book.createdAt (books d)
    (listedBooks (response (app env sess d GET_books))) /\
  ListsNewestFirst Book.createdAt (books d)
    (listedBooks (response (app env sess d GET_admin_books))) /\
  ListsNewestFirst Article.createdAt (articles d)
    (listedArticles (response (app env sess d GET_articles))) /\
  ListsNewestFirst Article.createdAt (articles d)
    (listedArticles (response (app env sess d GET_api_articles))).
Proof.
  repeat split; cbn [app]; apply sortDesc_newest_first.
Qed.

End ServerFacts.

(** ** Runs on concrete requests *)

Module Runs.
Import Mongoose Server Samples.

(** A content longer than 120 characters is cut at 120. *)
Example excerpt_of_long_content :
  let c := "0123456789012345678901234567890123456789012345678901234567890123456789012345678901234567890123456789012345678901234567890123456789" in
  map Article.excerpt
    (articles (db (post_write env0 None db0
                     [("title", "Digits"); ("content", c)])))
  = ["012345678901234567890123456789012345678901234567890123456789012345678901234567890123456789012345678901234567890123456789..."].
Proof. reflexivity. Qed.

(** A supplied excerpt is stored as it is. *)
Example excerpt_supplied :
  map Article.excerpt
    (articles (db (post_write env0 None db0 (("excerpt", "Short.") :: essay))))
  = ["Short."].
Proof. reflexivity. Qed.

(** Signin with a wrong password, or for an unknown email, goes back to
    the signin page and sets no session. *)
Example signin_wrong_password :
  post_signin None db0 [("email", "ada@example.org"); ("password", "byron")]
  = {| response := Redirect "/signin"; session := None; db := db0 |}.
Proof. reflexivity. Qed.

Example signin_right_password :
  post_signin None db0 [("email", "ada@example.org"); ("password", "lovelace")]
  = {| response := Redirect "/home"; session := Some adaSession; db := db0 |}.
Proof. reflexivity. Qed.

Example signin_unknown_email :
  post_signin None db0 [("email", "nobody@example.org"); ("password", "x")]
  = {| response := Redirect "/signin"; session := None; db := db0 |}.
Proof. reflexivity. Qed.

(** The book listing puts the newer book first. *)
Example books_listing :
  listedBooks (response (get_books None db0)) = Some [babel; nagomi].
Proof. reflexivity. Qed.

(** Creating a book with title "X" and description "Y", then listing. *)
Example create_then_list :
  let d := db (post_admin_books env0 None db0
                 [("title", "X"); ("description", "Y")]) in
  option_map (map (fun b => (Book.title b, Book.description b)))
    (listedBooks (response (get_admin_books None d)))
  = Some [("X", "Y"); ("After Babel", "Language and culture.");
          ("The Way of Nagomi", "Effortless balance.")].
Proof. reflexivity. Qed.

(** Editing and deleting a stored book. *)
Example edit_present :
  map Book.title
    (books (db (post_admin_books_edit None db0 (Id 10) bookEdit)))
  = ["Renamed"; "After Babel"].
Proof. reflexivity. Qed.

Example delete_present :
  books (db (post_admin_books_delete None db0 (Id 10))) = [babel].
Proof. reflexivity. Qed.

(** The archive filter on a tag with several words and a query with
    surrounding blanks. *)
Example filter_after_babel :
  let babelItem :=
    {| Archive.title := Some "After Babel";
       Archive.excerpt := Some "A fascinating newsletter about language.";
       Archive.author := Some "Jane Doe";
       Archive.tag := Some "Culture - Staff pick" |} in
  Archive.filterItems
    {| Archive.query := "  JANE  "; Archive.activeCategory := "Culture" |}
    [babelItem; Archive.foodDiary]
  = [babelItem].
Proof. reflexivity. Qed.

End Runs.

(** ** The store under the routes *)

Module StoreFacts.
Import Mongoose MongooseFacts Server ServerFacts Store.

(** *** The outcomes of the handlers that write *)

(** A signup either turns the visitor back to /signin and changes
    nothing, or stores one user, built from the submitted name and email
    and the hash of the submitted password, and logs that user in. *)
Lemma post_signup_cases {B : Bcrypt}
  (env : Env) (sess : Session) (d : Db) (body : Body) :
  post_signup env sess d body
    = {| response := Redirect "/signin"; session := sess; db := d |}
  \/
  exists e pw,
    field "email" body = Some e /\ e <> "" /\
    field "password" body = Some pw /\ pw <> "" /\
    User.findOne (Some e) (users d) = None /\
    hash 10 (salt env) pw <> "" /\
    post_signup env sess d body
      = {| response := Redirect "/home";
           session := Some {| id := newId env; email := e;
                              name := field "name" body |};
           db := setUsers d
                   (users d ++ [{| User._id := newId env;
                                   User.name := field "name" body;
                                   User.email := e;
                                   User.passwordHash := hash 10 (salt env) pw |}])%list
        |}.
Proof.
  unfold post_signup.
  destruct (field "email" body) as [e|]; [|now left].
  destruct (String.eqb_spec e "") as [->|Ne]; [now left |].
  destruct (field "password" body) as [pw|];
    [|rewrite orb_true_r; now left].
  destruct (String.eqb_spec pw "") as [->|Np]; [rewrite orb_true_r; now left |].
  rewrite (truthy_text e Ne), (truthy_text pw Np). cbn [negb orb].
  destruct (User.findOne (Some e) (users d)) eqn:F; [now left |].
  cbn [bind]. unfold User.create.
  destruct (String.eqb_spec (hash 10 (salt env) pw) "") as [H0|Nh].
  - left. cbn [User.f_email User.f_passwordHash]. rewrite H0.
    unfold validate, missing. cbn [filter snd].
    rewrite (truthy_text e Ne). reflexivity.
  - right. exists e, pw. repeat (split; [assumption || reflexivity |]).
    rewrite validate_ok.
    + cbn [bind tryCatch fst snd User.f_name User.f_email User.f_passwordHash
             User._id User.email User.name].
      now rewrite (orElse_text e "" Ne), (orElse_text _ "" Nh).
    + cbn [forallb snd User.f_email User.f_passwordHash].
      now rewrite (truthy_text e Ne), (truthy_text _ Nh).
Qed.

(** A submission either is refused with 400, or fails with 500, or adds
    one article at the end of the collection; nothing else changes. *)
Lemma post_write_cases
  (env : Env) (sess : Session) (d : Db) (body : Body) :
  (db (post_write env sess d body) = d \/
   exists a, db (post_write env sess d body)
             = setArticles d (articles d ++ [a])%list) /\
  session (post_write env sess d body) = sess.
Proof.
  unfold post_write.
  destruct (negb _ || negb _); [split; [now left | reflexivity] |].
  destruct (if JS.truthy _ then _ else _) as [x|];
    [|split; [now left | reflexivity]].
  cbn [bind]. unfold Article.create.
  destruct (validate _); [|split; [now left | reflexivity]].
  cbn [bind tryCatch db session snd]. split; [right; eauto | reflexivity].
Qed.

Lemma post_admin_books_cases
  (env : Env) (sess : Session) (d : Db) (body : Body) :
  (db (post_admin_books env sess d body) = d \/
   exists b, db (post_admin_books env sess d body)
             = setBooks d (books d ++ [b])%list) /\
  session (post_admin_books env sess d body) = sess.
Proof.
  unfold post_admin_books, Book.create.
  destruct (validate _); [|split; [now left | reflexivity]].
  cbn [bind tryCatch db session snd]. split; [right; eauto | reflexivity].
Qed.

(** *** Signing in and signing up *)

Lemma findOne_In (e : option string) (us : list User.doc) (u : User.doc) :
  User.findOne e us = Some u -> In u us /\ e = Some (User.email u).
Proof.
  destruct e as [e|]; [|discriminate]. simpl. intros H.
  apply find_some in H as [Hin He]. split; [exact Hin |].
  apply String.eqb_eq in He. now rewrite He.
Qed.

Lemma findOne_None_notIn (e : string) (us : list User.doc) :
  User.findOne (Some e) us = None -> ~ In e (map User.email us).
Proof.
  simpl. intros H Hin. apply in_map_iff in Hin as [u [Hu Hin]].
  apply (find_none _ _ H) in Hin. rewrite Hu, String.eqb_refl in Hin.
  discriminate.
Qed.

Lemma post_signin_db {B : Bcrypt} (sess : Session) (d : Db) (body : Body) :
  db (post_signin sess d body) = d.
Proof.
  unfold post_signin.
  destruct (User.findOne _ _) as [u|]; [|reflexivity].
  destruct (field "password" body) as [pw|]; [|reflexivity]. cbn [bind].
  now destruct (compare pw (User.passwordHash u)).
Qed.

(** A signin logs in the user that [findOne] returns for the email when
    the password verifies against that user's hash, and in every other
    case (no such user, a password that does not verify, a missing field)
    goes back to /signin with the session as it was.  The store is the
    same afterwards either way. *)
Theorem signin_verified_or_rejected {B : Bcrypt}
  (sess : Session) (d : Db) (body : Body) :
  (forall u, Verifies body d u ->
     In u (users d) /\
     post_signin sess d body
       = {| response := Redirect "/home";
            session := Some {| id := User._id u; email := User.email u;
                               name := User.name u |};
            db := d |}) /\
  ((forall u, ~ Verifies body d u) ->
     post_signin sess d body
       = {| response := Redirect "/signin"; session := sess; db := d |}) /\
  db (post_signin sess d body) = d.
Proof.
  unfold post_signin, Verifies. split; [|split].
  - intros u [pw [Hf [Hp Hc]]]. split; [now apply findOne_In in Hf |].
    rewrite Hf, Hp. cbn [bind]. now rewrite Hc.
  - intros H. destruct (User.findOne _ _) as [u|] eqn:F; [|reflexivity].
    destruct (field "password" body) as [pw|]; [|reflexivity]. cbn [bind].
    destruct (compare pw (User.passwordHash u)) eqn:C; [|reflexivity].
    exfalso. apply (H u). now exists pw.
  - apply (post_signin_db sess d body).
Qed.

Lemma signin_verified_or_rejected_witness :
  post_signin (B := Samples.sampleBcrypt) None Samples.db0
    [("email", "ada@example.org"); ("password", "byron")]
  = {| response := Redirect "/signin"; session := None; db := Samples.db0 |}.
Proof.
  apply (proj1 (proj2 (@signin_verified_or_rejected Samples.sampleBcrypt None
                         Samples.db0
                         [("email", "ada@example.org"); ("password", "byron")]))).
  intros u [pw [Hf [Hp Hc]]].
  injection Hp as <-. injection Hf as <-. discriminate Hc.
Defined.

(** A signup with a missing or empty email or password goes back to
    /signin: no user is stored and no session is set. *)
Theorem signup_requires_email_and_password {B : Bcrypt}
  (env : Env) (sess : Session) (d : Db) (body : Body) :
  blank (field "email" body) \/ blank (field "password" body) ->
  post_signup env sess d body
    = {| response := Redirect "/signin"; session := sess; db := d |}.
Proof.
  intros H. unfold post_signup.
  destruct H as [H|H]; apply blank_falsy in H; rewrite H.
  - reflexivity.
  - now rewrite orb_true_r.
Qed.

Lemma signup_requires_email_and_password_witness :
  post_signup (B := Samples.sampleBcrypt) Samples.env0 None Samples.db0
    [("name", "Grace"); ("email", "grace@example.org"); ("password", "")]
  = {| response := Redirect "/signin"; session := None; db := Samples.db0 |}.
Proof.
  apply (@signup_requires_email_and_password Samples.sampleBcrypt).
  right. right. reflexivity.
Defined.

(** *** Invariants of the user collection *)

(** Emails stay unique: whatever request is handled, a store in which
    no two users share an email is followed by such a store. *)
Theorem app_keeps_unique_emails {B : Bcrypt}
  (env : Env) (sess : Session) (d : Db) (req : Request) :
  UniqueEmails d -> UniqueEmails (db (app env sess d req)).
Proof.
  unfold UniqueEmails. intros H.
  destruct req; cbn [app]; try exact H.
  - destruct (post_write_cases env sess d body) as [[-> | [a ->]] _]; exact H.
  - destruct (post_signup_cases env sess d body)
      as [-> | [e [pw [_ [_ [_ [_ [F [_ ->]]]]]]]]]; [exact H |].
    cbn [db users setUsers]. rewrite map_app. apply NoDup_app.
    + exact H.
    + cbn. constructor; [intros [] | constructor].
    + intros a Ha [<- | []]. cbn in Ha.
      now apply findOne_None_notIn in F.
  - now rewrite post_signin_db.
  - destruct (post_admin_books_cases env sess d body) as [[-> | [b ->]] _];
      exact H.
  - unfold post_admin_books_edit.
    destruct (Book.findByIdAndUpdate _ _ _); exact H.
  - unfold post_admin_books_delete.
    destruct (Book.findByIdAndDelete _ _); exact H.
Qed.


Lemma app_keeps_unique_emails_witness :
  UniqueEmails
    (db (app (B := Samples.sampleBcrypt) Samples.env0 None Samples.db0
           (POST_signup Samples.signupGrace))).
Proof.
  apply (@app_keeps_unique_emails Samples.sampleBcrypt).
  unfold UniqueEmails. simpl. constructor; [intros [] | constructor].
Defined.

(** Stored users stay complete: whatever request is handled, a store in
    which every user has a non-empty email and password hash is followed
    by such a store. *)
Theorem app_keeps_users_complete {B : Bcrypt}
  (env : Env) (sess : Session) (d : Db) (req : Request) :
  UsersComplete d -> UsersComplete (db (app env sess d req)).
Proof.
  unfold UsersComplete. intros H.
  destruct req; cbn [app]; try exact H.
  - destruct (post_write_cases env sess d body) as [[-> | [a ->]] _]; exact H.
  - destruct (post_signup_cases env sess d body)
      as [-> | [e [pw [_ [Ne [_ [_ [_ [Nh ->]]]]]]]]]; [exact H |].
    cbn [db users setUsers]. apply Forall_app. split; [exact H |].
    constructor; [now split | constructor].
  - now rewrite post_signin_db.
  - destruct (post_admin_books_cases env sess d body) as [[-> | [b ->]] _];
      exact H.
  - unfold post_admin_books_edit.
    destruct (Book.findByIdAndUpdate _ _ _); exact H.
  - unfold post_admin_books_delete.
    destruct (Book.findByIdAndDelete _ _); exact H.
Qed.

Lemma app_keeps_users_complete_witness :
  UsersComplete
    (db (app (B := Samples.sampleBcrypt) Samples.env0 None Samples.db0
           (POST_signup Samples.signupGrace))).
Proof.
  apply (@app_keeps_users_complete Samples.sampleBcrypt).
  unfold UsersComplete. simpl.
  constructor; [split; discriminate | constructor].
Defined.

(** Users and articles are only ever added: after any request the user
    collection and the article collection are the ones before, with at
    most new documents at their end.  No route edits or removes them. *)
Theorem users_and_articles_only_grow {B : Bcrypt}
  (env : Env) (sess : Session) (d : Db) (req : Request) :
  Extends (users d) (users (db (app env sess d req))) /\
  Extends (articles d) (articles (db (app env sess d req))).
Proof.
  assert (R : forall A (l : list A), Extends l l).
  { intros A l. exists []. now rewrite app_nil_r. }
  destruct req; cbn [app]; try (split; apply R).
  - destruct (post_write_cases env sess d body) as [[-> | [a ->]] _];
      [split; apply R |].
    split; [apply R | now exists [a]].
  - destruct (post_signup_cases env sess d body)
      as [-> | [e [pw [_ [_ [_ [_ [_ [_ ->]]]]]]]]]; [split; apply R |].
    split; [eexists; reflexivity | apply R].
  - rewrite post_signin_db. split; apply R.
  - destruct (post_admin_books_cases env sess d body) as [[-> | [b ->]] _];
      split; apply R.
  - unfold post_admin_books_edit.
    destruct (Book.findByIdAndUpdate _ _ _); split; apply R.
  - unfold post_admin_books_delete.
    destruct (Book.findByIdAndDelete _ _); split; apply R.
Qed.

Lemma routes_write_their_own_collection_aux {B : Bcrypt}
  (env : Env) (sess : Session) (d : Db) (req : Request) :
  (writesUsers req = false -> users (db (app env sess d req)) = users d) /\
  (writesArticles req = false ->
   articles (db (app env sess d req)) = articles d) /\
  (writesBooks req = false -> books (db (app env sess d req)) = books d) /\
  (writesSession req = false -> session (app env sess d req) = sess).
Proof.
  destruct req; cbn [app writesUsers writesArticles writesBooks writesSession];
    try (repeat split; intros; (reflexivity || discriminate)).
  - destruct (post_write_cases env sess d body) as [[-> | [a ->]] ->];
      repeat split; intros; (reflexivity || discriminate).
  - destruct (post_signup_cases env sess d body)
      as [-> | [e [pw [_ [_ [_ [_ [_ [_ ->]]]]]]]]];
      repeat split; intros; (reflexivity || discriminate).
  - rewrite post_signin_db.
    repeat split; intros; (reflexivity || discriminate).
  - destruct (post_admin_books_cases env sess d body) as [[-> | [b ->]] ->];
      repeat split; intros; (reflexivity || discriminate).
  - unfold post_admin_books_edit.
    destruct (Book.findByIdAndUpdate _ _ _);
      repeat split; intros; (reflexivity || discriminate).
  - unfold post_admin_books_delete.
    destruct (Book.findByIdAndDelete _ _);
      repeat split; intros; (reflexivity || discriminate).
Qed.

(** Each collection is written by its own routes only: users by
    POST /signup, articles by POST /write, books by the three POST routes
    under /admin/books; and the session is touched by signup, signin and
    logout only. *)
Theorem routes_write_their_own_collection {B : Bcrypt}
  (env : Env) (sess : Session) (d : Db) (req : Request) :
  (writesUsers req = false -> users (db (app env sess d req)) = users d) /\
  (writesArticles req = false ->
   articles (db (app env sess d req)) = articles d) /\
  (writesBooks req = false -> books (db (app env sess d req)) = books d) /\
  (writesSession req = false -> session (app env sess d req) = sess).
Proof. apply routes_write_their_own_collection_aux. Qed.

Lemma routes_write_their_own_collection_witness :
  users (db (app (B := Samples.sampleBcrypt) Samples.env0 None Samples.db0
               (POST_write Samples.essay)))
  = users Samples.db0.
Proof.
  apply (@routes_write_their_own_collection Samples.sampleBcrypt Samples.env0
           None Samples.db0 (POST_write Samples.essay)).
  reflexivity.
Defined.


Lemma post_signin_cases {B : Bcrypt} (sess : Session) (d : Db) (body : Body) :
  post_signin sess d body
    = {| response := Redirect "/signin"; session := sess; db := d |}
  \/
  exists u, In u (users d) /\
    post_signin sess d body
      = {| response := Redirect "/home";
           session := Some {| id := User._id u; email := User.email u;
                              name := User.name u |};
           db := d |}.
Proof.
  unfold post_signin.
  destruct (User.findOne _ _) as [u|] eqn:F; [|now left].
  destruct (field "password" body) as [pw|]; [|now left]. cbn [bind].
  destruct (compare pw (User.passwordHash u)); [|now left].
  right. exists u. split; [now apply findOne_In in F | reflexivity].
Qed.

Lemma SessionOfStore_grows (sess : Session) (d d' : Db) :
  Extends (users d) (users d') -> SessionOfStore sess d ->
  SessionOfStore sess d'.
Proof.
  intros [more E] H su Hs. destruct (H su Hs) as [u [Hin Hu]].
  exists u. split; [|exact Hu]. rewrite E. apply in_or_app. now left.
Qed.

(** The session always names a stored user: when the session of a
    request holds the id, email and name of a stored user (or no user),
    so does the session after the request, in the store after it. *)
Theorem session_names_a_stored_user {B : Bcrypt}
  (env : Env) (sess : Session) (d : Db) (req : Request) :
  SessionOfStore sess d ->
  SessionOfStore (session (app env sess d req)) (db (app env sess d req)).
Proof.
  intros H.
  assert (R : forall A (l : list A), Extends l l).
  { intros A l. exists []. now rewrite app_nil_r. }
  destruct req; cbn [app]; try exact H.
  - destruct (post_write_cases env sess d body) as [[-> | [a ->]] ->];
      [exact H |].
    apply (SessionOfStore_grows sess d); [apply R | exact H].
  - destruct (post_signup_cases env sess d body)
      as [-> | [e [pw [_ [_ [_ [_ [_ [_ ->]]]]]]]]]; [exact H |].
    cbn [session db]. intros su Hs. injection Hs as <-.
    eexists. split.
    + cbn [users setUsers]. apply in_or_app. right. left. reflexivity.
    + reflexivity.
  - destruct (post_signin_cases sess d body) as [-> | [u [Hin ->]]];
      [exact H |].
    cbn [session db]. intros su Hs. injection Hs as <-. now exists u.
  - intros su Hs. discriminate Hs.
  - destruct (post_admin_books_cases env sess d body) as [[-> | [b ->]] ->];
      [exact H |].
    apply (SessionOfStore_grows sess d); [apply R | exact H].
  - unfold post_admin_books_edit.
    destruct (Book.findByIdAndUpdate _ _ _); [|exact H].
    apply (SessionOfStore_grows sess d); [apply R | exact H].
  - unfold post_admin_books_delete.
    destruct (Book.findByIdAndDelete _ _); [|exact H].
    apply (SessionOfStore_grows sess d); [apply R | exact H].
Qed.

Lemma session_names_a_stored_user_witness :
  SessionOfStore
    (session (app (B := Samples.sampleBcrypt) Samples.env0 None Samples.db0
                (POST_signup Samples.signupGrace)))
    (db (app (B := Samples.sampleBcrypt) Samples.env0 None Samples.db0
           (POST_signup Samples.signupGrace))).
Proof.
  apply (@session_names_a_stored_user Samples.sampleBcrypt).
  intros su Hs. discriminate Hs.
Defined.


Lemma signin_after_signup_and_requests_witness :
  post_signin (B := Samples.sampleBcrypt) None
    (dbAfter (B := Samples.sampleBcrypt)
       [(Samples.env0, None, POST_write Samples.essay);
        (Samples.env0, None, POST_signup Samples.signupGrace);
        (Samples.env0, None, POST_admin_books_delete (Id 10))]
       (db (post_signup (B := Samples.sampleBcrypt) Samples.env0 None
              Samples.db0 Samples.signupGrace)))
    [("email", "grace@example.org"); ("password", "hopper")]
  = {| response := Redirect "/home";
       session := session (post_signup (B := Samples.sampleBcrypt) Samples.env0
                             None Samples.db0 Samples.signupGrace);
       db := dbAfter (B := Samples.sampleBcrypt)
               [(Samples.env0, None, POST_write Samples.essay);
                (Samples.env0, None, POST_signup Samples.signupGrace);
                (Samples.env0, None, POST_admin_books_delete (Id 10))]
               (db (post_signup (B := Samples.sampleBcrypt) Samples.env0 None
                      Samples.db0 Samples.signupGrace)) |}.
Proof.
  apply (@signin_after_signup_and_requests Samples.sampleBcrypt
           sampleBcrypt_laws Samples.env0 None None Samples.db0
           Samples.signupGrace
           [("email", "grace@example.org"); ("password", "hopper")]
           "grace@example.org" "hopper"
           [(Samples.env0, None, POST_write Samples.essay);
            (Samples.env0, None, POST_signup Samples.signupGrace);
            (Samples.env0, None, POST_admin_books_delete (Id 10))]).
  - reflexivity.
  - discriminate.
  - reflexivity.
  - discriminate.
  - intros u [<- | []]. discriminate.
  - reflexivity.
  - reflexivity.
Defined.

End StoreFacts.

(** ** Book administration on stored books *)

Module BookFacts.
Import Mongoose MongooseFacts Server ServerFacts Store StoreFacts BookStore.

Lemma findById_split (oid : ObjectId) (f : Book.fields) (bs : list Book.doc)
  (b : Book.doc) :
  Book.findById oid bs = Some b ->
  exists pre post,
    FirstWithId oid b pre post bs /\
    Book.updateFirst oid f bs = (pre ++ Book.apply f b :: post)%list /\
    Book.removeFirst oid bs = (pre ++ post)%list.
Proof.
  unfold Book.findById, FirstWithId.
  induction bs as [|x bs IH]; [discriminate |]. simpl.
  destruct (N.eqb_spec (Book._id x) oid) as [E|N].
  - intros H. injection H as <-. exists [], bs. simpl.
    repeat split; try assumption. intros y [].
  - intros H. destruct (IH H) as [pre [post [[E [Hb Hpre]] [Hu Hr]]]].
    exists (x :: pre), post. simpl. rewrite Hu, Hr, E.
    repeat split; try assumption.
    intros y [<- | Hy]; [exact N | now apply Hpre].
Qed.

(** The first book with an id, in a list split at it, is the one
    [findById] returns. *)
Lemma findById_first (oid : ObjectId) (pre post : list Book.doc) (b : Book.doc) :
  Book._id b = oid ->
  (forall x, In x pre -> Book._id x <> oid) ->
  Book.findById oid (pre ++ b :: post)%list = Some b.
Proof.
  intros Hid Hpre. unfold Book.findById.
  induction pre as [|x pre IH]; simpl.
  - rewrite Hid, N.eqb_refl. reflexivity.
  - destruct (N.eqb_spec (Book._id x) oid) as [E|_].
    + exfalso. apply (Hpre x); [now left | exact E].
    + apply IH. intros y Hy. apply Hpre. now right.
Qed.

Lemma sortDesc_newest {A : Type} (key : A -> Z) (l : list A) (a : A) :
  AllOlder key (key a) l ->
  sortDesc key (l ++ [a]) = a :: sortDesc key l.
Proof.
  unfold AllOlder. induction l as [|x l IH]; intros H; [reflexivity |].
  change (sortDesc key ((x :: l) ++ [a]))
    with (insertDesc key x (sortDesc key (l ++ [a]))).
  rewrite IH by (intros y Hy; apply H; now right).
  cbn [insertDesc]. destruct (Z.leb_spec (key a) (key x)) as [Le|_].
  - specialize (H x (or_introl eq_refl)). lia.
  - reflexivity.
Qed.

Lemma sortDesc_length {A : Type} (key : A -> Z) (l : list A) :
  length (sortDesc key l) = length l.
Proof. symmetry. apply Permutation_length, sortDesc_perm. Qed.

(** Creating a book and listing.  For every POST /admin/books request
    with a non-empty title and description, one book with that title,
    description and image, the generated id and the current time is
    stored and the response redirects to /admin/books; both book listings
    then show that book among one more book than before, and show it
    first when every stored book is older. *)
Theorem create_book_then_list
  (env : Env) (sess sess' : Session) (d : Db) (body : Body) (t ds : string) :
  field "title" body = Some t -> t <> "" ->
  field "description" body = Some ds -> ds <> "" ->
  let b := {| Book._id := newId env; Book.title := t; Book.description := ds;
              Book.image := field "image" body;
              Book.createdAt := now env |} in
  let d' := setBooks d (books d ++ [b])%list in
  post_admin_books env sess d body
    = {| response := Redirect "/admin/books"; session := sess; db := d' |} /\
  listedBooks (response (get_admin_books sess' d'))
    = listedBooks (response (get_books sess' d')) /\
  (exists l,
     listedBooks (response (get_admin_books sess' d')) = Some l /\
     In b l /\ length l = S (length (books d))) /\
  (AllOlder Book.createdAt (now env) (books d) ->
   listedBooks (response (get_admin_books sess' d'))
     = Some (b :: Book.find_sorted (books d))).
Proof.
  intros Ht Nt Hd Nd b d'. split; [|split; [reflexivity | split]].
  - unfold post_admin_books, Book.create, bookFields.
    cbn [Book.f_title Book.f_description Book.f_image]. rewrite Ht, Hd.
    rewrite validate_ok.
    + cbn [bind tryCatch snd]. now rewrite !orElse_text by assumption.
    + cbn [forallb snd]. now rewrite (truthy_text t Nt), (truthy_text ds Nd).
  - exists (Book.find_sorted (books d')). split; [reflexivity |]. split.
    + apply (Permutation_in b (sortDesc_perm Book.createdAt (books d'))).
      cbn [d' books setBooks]. apply in_or_app. right. now left.
    + unfold Book.find_sorted. rewrite sortDesc_length.
      cbn [d' books setBooks]. rewrite length_app. simpl. lia.
  - intros H. cbn [get_admin_books response render listedBooks data].
    cbn [d' books setBooks]. unfold Book.find_sorted.
    now rewrite (sortDesc_newest Book.createdAt (books d) b H).
Qed.

Lemma create_book_then_list_witness :
  post_admin_books Samples.env0 None Samples.db0
    [("title", "X"); ("description", "Y")]
  = {| response := Redirect "/admin/books"; session := None;
       db := setBooks Samples.db0
               [Samples.nagomi; Samples.babel;
                {| Book._id := 42; Book.title := "X"; Book.description := "Y";
                   Book.image := None; Book.createdAt := 1700000000000 |}] |}.
Proof.
  apply (create_book_then_list Samples.env0 None None Samples.db0
           [("title", "X"); ("description", "Y")] "X" "Y").
  - reflexivity.
  - discriminate.
  - reflexivity.
  - discriminate.
Defined.


(** Editing a stored book.  When the id is the id of a stored book, the
    first such book takes every submitted field as it is (no validation:
    an empty title or description is written too), keeps its id and its
    creation time, and stays at its place; every other book is untouched
    and the response is the redirect to /admin/books.  The book
    collection after the request is the one before it with that book
    rewritten; users and articles are as before. *)
Theorem edit_stored_book
  (sess : Session) (d : Db) (oid : ObjectId) (body : Body) (b : Book.doc) :
  Book.findById oid (books d) = Some b ->
  exists pre post b',
    FirstWithId oid b pre post (books d) /\
    post_admin_books_edit sess d (Id oid) body
      = {| response := Redirect "/admin/books"; session := sess;
           db := setBooks d (pre ++ b' :: post)%list |} /\
    Book._id b' = oid /\
    Book.createdAt b' = Book.createdAt b /\
    (forall t, field "title" body = Some t -> Book.title b' = t) /\
    (forall t, field "description" body = Some t -> Book.description b' = t) /\
    (forall t, field "image" body = Some t -> Book.image b' = Some t) /\
    books (db (post_admin_books_edit sess d (Id oid) body))
      = (pre ++ b' :: post)%list /\
    Book.findById oid (books (db (post_admin_books_edit sess d (Id oid) body)))
      = Some b' /\
    users (db (post_admin_books_edit sess d (Id oid) body)) = users d /\
    articles (db (post_admin_books_edit sess d (Id oid) body)) = articles d.
Proof.
  intros H.
  destruct (findById_split oid (bookFields body) (books d) b H)
    as [pre [post [F [Hu _]]]].
  exists pre, post, (Book.apply (bookFields body) b).
  assert (E : post_admin_books_edit sess d (Id oid) body
              = {| response := Redirect "/admin/books"; session := sess;
                   db := setBooks d
                           (pre ++ Book.apply (bookFields body) b :: post)%list
                |}).
  { unfold post_admin_books_edit, Book.findByIdAndUpdate.
    cbn [castObjectId bind tryCatch snd]. now rewrite Hu. }
  split; [exact F |]. split; [exact E |].
  destruct F as [_ [Hid Hpre]].
  split; [exact Hid |]. split; [reflexivity |].
  split; [intros t Ht; cbn; now rewrite Ht |].
  split; [intros t Ht; cbn; now rewrite Ht |].
  split; [intros t Ht; cbn; now rewrite Ht |].
  rewrite E. cbn [db books users articles setBooks].
  split; [reflexivity |]. split; [| split; reflexivity].
  apply findById_first; [exact Hid | exact Hpre].
Qed.

Lemma edit_stored_book_witness :
  exists pre post b',
    FirstWithId 10 Samples.nagomi pre post (books Samples.db0) /\
    post_admin_books_edit None Samples.db0 (Id 10) Samples.bookEdit
      = {| response := Redirect "/admin/books"; session := None;
           db := setBooks Samples.db0 (pre ++ b' :: post)%list |} /\
    Book._id b' = 10%N /\
    Book.createdAt b' = Book.createdAt Samples.nagomi /\
    books (db (post_admin_books_edit None Samples.db0 (Id 10) Samples.bookEdit))
      = (pre ++ b' :: post)%list /\
    Book.findById 10
      (books (db (post_admin_books_edit None Samples.db0 (Id 10)
                    Samples.bookEdit)))
      = Some b'.
Proof.
  destruct (edit_stored_book None Samples.db0 10 Samples.bookEdit
              Samples.nagomi eq_refl)
    as [pre [post [b' [F [E [I [C [_ [_ [_ [P [Q _]]]]]]]]]]]].
  exists pre, post, b'.
  split; [exact F | split; [exact E | split; [exact I | split;
    [exact C | split; [exact P | exact Q]]]]].
Defined.

(** Deleting a stored book.  When the id is the id of a stored book, the
    first such book is removed, every other book stays in place, and the
    response is the redirect to /admin/books. *)
Theorem delete_stored_book
  (sess : Session) (d : Db) (oid : ObjectId) (b : Book.doc) :
  Book.findById oid (books d) = Some b ->
  exists pre post,
    FirstWithId oid b pre post (books d) /\
    post_admin_books_delete sess d (Id oid)
      = {| response := Redirect "/admin/books"; session := sess;
           db := setBooks d (pre ++ post)%list |} /\
    length (books (db (post_admin_books_delete sess d (Id oid))))
      = pred (length (books d)).
Proof.
  intros H.
  destruct (findById_split oid (bookFields []) (books d) b H)
    as [pre [post [F [_ Hr]]]].
  exists pre, post. split; [exact F |].
  assert (E : post_admin_books_delete sess d (Id oid)
              = {| response := Redirect "/admin/books"; session := sess;
                   db := setBooks d (pre ++ post)%list |}).
  { unfold post_admin_books_delete, Book.findByIdAndDelete.
    cbn [castObjectId bind tryCatch snd]. now rewrite Hr. }
  split; [exact E |]. rewrite E. cbn [db books setBooks].
  destruct F as [-> _]. rewrite !length_app. simpl. lia.
Qed.

Lemma delete_stored_book_witness :
  exists pre post,
    FirstWithId 10 Samples.nagomi pre post (books Samples.db0) /\
    post_admin_books_delete None Samples.db0 (Id 10)
      = {| response := Redirect "/admin/books"; session := None;
           db := setBooks Samples.db0 (pre ++ post)%list |}.
Proof.
  destruct (delete_stored_book None Samples.db0 10 Samples.nagomi eq_refl)
    as [pre [post [F [E _]]]].
  exists pre, post. split; assumption.
Defined.

Lemma removeFirst_In (oid : ObjectId) (bs : list Book.doc) (x : Book.doc) :
  In x (Book.removeFirst oid bs) -> In x bs.
Proof.
  induction bs as [|b bs IH]; simpl; [auto |].
  destruct (Book._id b =? oid)%N; [now right |].
  intros [<- | H]; [now left | right; now apply IH].
Qed.

Lemma removeFirst_unique (oid : ObjectId) (bs : list Book.doc) :
  NoDup (map Book._id bs) ->
  NoDup (map Book._id (Book.removeFirst oid bs)) /\
  forall x, In x (Book.removeFirst oid bs) -> Book._id x <> oid.
Proof.
  induction bs as [|b bs IH]; simpl; intros H.
  - split; [constructor | intros x []].
  - inversion H as [|? ? Hn Hd]; subst.
    destruct (N.eqb_spec (Book._id b) oid) as [E|N].
    + split; [exact Hd |]. intros x Hx Hid. apply Hn.
      rewrite E, <- Hid. now apply in_map.
    + destruct (IH Hd) as [Hd' Ha]. split.
      * simpl. constructor; [|exact Hd'].
        intros Hin. apply Hn. apply in_map_iff in Hin as [y [Hy Hin]].
        rewrite <- Hy. apply in_map. now apply removeFirst_In in Hin.
      * intros x [<- | Hx]; [exact N | now apply Ha].
Qed.

Lemma updateFirst_ids (oid : ObjectId) (f : Book.fields) (bs : list Book.doc) :
  map Book._id (Book.updateFirst oid f bs) = map Book._id bs.
Proof.
  induction bs as [|b bs IH]; simpl; [reflexivity |].
  destruct (Book._id b =? oid)%N; simpl; [reflexivity | now rewrite IH].
Qed.

(** Deleting is idempotent on a collection with unique ids: once a
    delete request for an id has been handled, no book has that id, and
    a second delete request for it changes nothing. *)
Theorem delete_twice
  (sess sess' : Session) (d : Db) (oid : ObjectId) :
  UniqueBookIds d ->
  let d' := db (post_admin_books_delete sess d (Id oid)) in
  Book.findById oid (books d') = None /\
  post_admin_books_delete sess' d' (Id oid)
    = {| response := Redirect "/admin/books"; session := sess'; db := d' |}.
Proof.
  intros U d'. unfold UniqueBookIds in U.
  assert (A : forall x, In x (books d') -> Book._id x <> oid).
  { unfold d', post_admin_books_delete, Book.findByIdAndDelete.
    cbn [castObjectId bind tryCatch snd db books setBooks].
    apply (removeFirst_unique oid (books d) U). }
  split; [now apply findById_absent |].
  unfold post_admin_books_delete, Book.findByIdAndDelete.
  cbn [castObjectId bind tryCatch snd].
  now rewrite (removeFirst_absent oid (books d') A), setBooks_same.
Qed.

Lemma delete_twice_witness :
  Book.findById 10
    (books (db (post_admin_books_delete None Samples.db0 (Id 10)))) = None /\
  post_admin_books_delete None
    (db (post_admin_books_delete None Samples.db0 (Id 10))) (Id 10)
  = {| response := Redirect "/admin/books"; session := None;
       db := db (post_admin_books_delete None Samples.db0 (Id 10)) |}.
Proof.
  apply (delete_twice None None Samples.db0 10).
  unfold UniqueBookIds. simpl.
  constructor; [intros [H | []]; discriminate H |].
  constructor; [intros [] | constructor].
Defined.

(** Book ids stay unique: when no two stored books share an id and the
    id generated for this request is the id of no stored book, no two
    books share an id after the request. *)
Theorem app_keeps_unique_book_ids {B : Bcrypt}
  (env : Env) (sess : Session) (d : Db) (req : Request) :
  UniqueBookIds d ->
  (forall b, In b (books d) -> Book._id b <> newId env) ->
  UniqueBookIds (db (app env sess d req)).
Proof.
  unfold UniqueBookIds. intros U Fresh.
  destruct (routes_write_their_own_collection_aux env sess d req)
    as [_ [_ [W _]]].
  destruct req; try (rewrite W by reflexivity; exact U); cbn [app].
  - unfold post_admin_books, Book.create.
    destruct (validate _); [|exact U].
    cbn [bind tryCatch snd db books setBooks]. rewrite map_app.
    apply NoDup_app; [exact U | |].
    + cbn. constructor; [intros [] | constructor].
    + intros i Hi [<- | []]. cbn in Hi.
      apply in_map_iff in Hi as [x [Hx Hin]]. now apply (Fresh x).
  - unfold post_admin_books_edit, Book.findByIdAndUpdate.
    destruct idp as [oid|text]; cbn [castObjectId bind tryCatch snd db];
      [|exact U].
    cbn [books setBooks]. now rewrite updateFirst_ids.
  - unfold post_admin_books_delete, Book.findByIdAndDelete.
    destruct idp as [oid|text]; cbn [castObjectId bind tryCatch snd db];
      [|exact U].
    cbn [books setBooks]. now apply removeFirst_unique.
Qed.

Lemma app_keeps_unique_book_ids_witness :
  UniqueBookIds
    (db (app (B := Samples.sampleBcrypt) Samples.env0 None Samples.db0
           (POST_admin_books [("title", "X"); ("description", "Y")]))).
Proof.
  apply (@app_keeps_unique_book_ids Samples.sampleBcrypt).
  - unfold UniqueBookIds. simpl.
    constructor; [intros [H | []]; discriminate H |].
    constructor; [intros [] | constructor].
  - intros b [<- | [<- | []]]; discriminate.
Defined.

End BookFacts.

(** ** Publishing an article *)

Module ArticleFacts.
Import Mongoose MongooseFacts Server ServerFacts Store BookStore BookFacts.

(** Publishing and listing.  For every POST /write request with a
    non-empty title and content, one article is stored with that title
    and content, with the submitted tag, author and read time or, where
    one is missing or empty, 'Article', 'Anonymous' and '3 min read', with
    a submitted non-empty excerpt as it is, with the cover image or the
    empty text, marked as a community article and dated now; the response
    redirects to /articles.  The page and the JSON feed then list that
    article, and list it first when every stored article is older. *)
Theorem write_then_list
  (env : Env) (sess sess' : Session) (d : Db) (body : Body) (t c : string) :
  field "title" body = Some t -> t <> "" ->
  field "content" body = Some c -> c <> "" ->
  exists a,
    let d' := setArticles d (articles d ++ [a])%list in
    post_write env sess d body
      = {| response := Redirect "/articles"; session := sess; db := d' |} /\
    Article._id a = newId env /\
    Article.title a = t /\ Article.content a = c /\
    Article.tag a = JS.orElse (field "tag" body) "Article" /\
    Article.author a = JS.orElse (field "author" body) "Anonymous" /\
    Article.readTime a = JS.orElse (field "readTime" body) "3 min read" /\
    (forall x, field "excerpt" body = Some x -> x <> "" ->
               Article.excerpt a = x) /\
    Article.coverImage a = Article.withDefault (field "coverImage" body) "" /\
    Article.isCommunity a = true /\
    Article.createdAt a = now env /\
    listedArticles (response (get_articles sess' d'))
      = listedArticles (response (get_api_articles sess' d')) /\
    (exists l, listedArticles (response (get_api_articles sess' d')) = Some l /\
               In a l /\ length l = S (length (articles d))) /\
    (AllOlder Article.createdAt (now env) (articles d) ->
     listedArticles (response (get_api_articles sess' d'))
       = Some (a :: Article.find_sorted (articles d))).
Proof.
  intros Ht Nt Hc Nc.
  set (x := if JS.truthy (field "excerpt" body)
            then JS.orElse (field "excerpt" body) ""
            else JS.slice0 120 c ++ "...").
  pose (a := {| Article._id := newId env;
                Article.title := t;
                Article.tag := JS.orElse (field "tag" body) "Article";
                Article.author := JS.orElse (field "author" body) "Anonymous";
                Article.readTime :=
                  JS.orElse (field "readTime" body) "3 min read";
                Article.excerpt := x;
                Article.content := c;
                Article.coverImage :=
                  Article.withDefault (field "coverImage" body) "";
                Article.isCommunity := true;
                Article.createdAt := now env |}).
  exists a. cbv zeta. unfold a at 2 3 4 5 6 7 8 9 10 11 12.
  cbn [Article._id Article.title Article.tag Article.author Article.readTime
       Article.excerpt Article.content Article.coverImage Article.isCommunity
       Article.createdAt].
  split.
  { unfold post_write. rewrite Ht, Hc.
    rewrite (truthy_text t Nt), (truthy_text c Nc). cbn [negb orb].
    fold x.
    assert (E : (if JS.truthy (field "excerpt" body)
                 then Returns (JS.orElse (field "excerpt" body) "")
                 else (s <- slice120 (Some c) ;; Returns (s ++ "...")))
                = Returns x).
    { unfold x. now destruct (JS.truthy (field "excerpt" body)). }
    rewrite E. cbn [bind]. unfold Article.create. rewrite validate_ok.
    - cbn -[JS.slice0 JS.orElse x]. rewrite !orElse_text by assumption.
      reflexivity.
    - cbn [forallb snd Article.f_title Article.f_content].
      now rewrite (truthy_text t Nt), (truthy_text c Nc). }
  repeat (split; [reflexivity |]).
  split.
  { intros e He Ne. unfold x. rewrite He.
    now rewrite (truthy_text e Ne), (orElse_text e "" Ne). }
  repeat (split; [reflexivity |]).
  split.
  { eexists. split; [reflexivity |]. split.
    - apply (Permutation_in _ (sortDesc_perm Article.createdAt _)).
      cbn [db articles setArticles]. apply in_or_app. right. now left.
    - unfold Article.find_sorted. rewrite sortDesc_length.
      cbn [articles setArticles]. rewrite length_app. simpl. lia. }
  intros H. cbn [get_api_articles response listedArticles].
  cbn [articles setArticles]. unfold Article.find_sorted.
  now rewrite (sortDesc_newest Article.createdAt (articles d) a H).
Qed.

Lemma write_then_list_witness :
  exists a,
    post_write Samples.env0 None Samples.db0 Samples.essay
      = {| response := Redirect "/articles"; session := None;
           db := setArticles Samples.db0 (articles Samples.db0 ++ [a])%list |} /\
    Article.tag a = "Article" /\ Article.author a = "Anonymous".
Proof.
  destruct (write_then_list Samples.env0 None None Samples.db0 Samples.essay
              "On reading" "Books left unread." eq_refl)
    as [a [E [_ [_ [_ [T [A _]]]]]]];
    [discriminate | reflexivity | discriminate |].
  exists a. split; [exact E | split; [exact T | exact A]].
Defined.

End ArticleFacts.

(** ** The HTML helpers *)

Module HtmlFacts.
Import JS JSFacts Html.

Lemma replaceChar_other (c : ascii) (by_ s : string) :
  allChars (fun x => negb (Ascii.eqb x c)) s = true ->
  replaceChar c by_ s = s.
Proof.
  induction s as [|x t IH]; simpl; [reflexivity |].
  intros H. apply andb_true_iff in H as [Hx Ht].
  apply negb_true_iff in Hx. rewrite Hx. now rewrite IH.
Qed.

Lemma replaceChar_app (c : ascii) (by_ a b : string) :
  replaceChar c by_ (a ++ b) = replaceChar c by_ a ++ replaceChar c by_ b.
Proof.
  induction a as [|x t IH]; simpl; [reflexivity |].
  destruct (Ascii.eqb x c); simpl; rewrite IH; [|reflexivity].
  now rewrite append_assoc.
Qed.

(** The five replacements in sequence amount to replacing each
    character of the input once: no replacement rewrites the output of
    an earlier one, the ampersand being replaced first. *)
Lemma escapeHtml_each (s : string) : escapeHtml (Some s) = escapeEach s.
Proof.
  unfold escapeHtml. induction s as [|c t IH]; [reflexivity |].
  cbn [escapeEach]. rewrite <- IH. clear IH.
  unfold escapeChar.
  destruct c as [[|] [|] [|] [|] [|] [|] [|] [|]];
    cbn [Ascii.eqb Bool.eqb andb];
    cbn -[replaceChar];
    try reflexivity;
    cbn [replaceChar Ascii.eqb Bool.eqb andb append]; reflexivity.
Qed.




Lemma unescapeHtml_each (s : string) : unescapeHtml (escapeEach s) = s.
Proof.
  induction s as [|c t IH]; [reflexivity |].
  cbn [escapeEach].
  destruct c as [[|] [|] [|] [|] [|] [|] [|] [|]];
    cbn -[unescapeHtml escapeEach];
    try (cbn [unescapeHtml append]; now rewrite IH).
Qed.


(** [escapeHtml] loses nothing: reading the five entities back gives
    the input text again, so two different texts never escape to the same
    output. *)
Theorem escapeHtml_round_trip :
  (forall s, unescapeHtml (escapeHtml (Some s)) = s) /\
  (forall s1 s2, escapeHtml (Some s1) = escapeHtml (Some s2) -> s1 = s2).
Proof.
  assert (R : forall s, unescapeHtml (escapeHtml (Some s)) = s).
  { intros s. rewrite escapeHtml_each. apply unescapeHtml_each. }
  split; [exact R |].
  intros s1 s2 H. rewrite <- (R s1), <- (R s2). now rewrite H.
Qed.

Lemma escapeHtml_round_trip_witness :
  unescapeHtml (escapeHtml (Some "Q&A <b>")) = "Q&A <b>" /\
  "Q&A <b>" = "Q&A <b>".
Proof.
  split.
  - apply (proj1 escapeHtml_round_trip).
  - apply (proj2 escapeHtml_round_trip "Q&A <b>" "Q&A <b>"). reflexivity.
Defined.

Lemma escapeRegExp_literal_aux (s : string) :
  literalOfPattern (escapeRegExp s) = Some s.
Proof.
  induction s as [|c t IH]; [reflexivity |].
  cbn [escapeRegExp].
  destruct (isSyntaxChar c) eqn:E.
  - cbn [literalOfPattern]. rewrite E, IH. reflexivity.
  - assert (N : c <> "\"%char).
    { intros ->. discriminate E. }
    destruct c as [[|] [|] [|] [|] [|] [|] [|] [|]];
      try (exfalso; now apply N); try discriminate E;
      cbn -[escapeRegExp isSyntaxChar]; rewrite ?E, IH; reflexivity.
Qed.

(** Read as a regular expression, the output of [escapeRegExp] is a
    literal: it has no syntax character left unescaped, and the text it
    matches is the input text. *)
Theorem escapeRegExp_is_literal (s : string) :
  literalOfPattern (escapeRegExp s) = Some s.
Proof. apply escapeRegExp_literal_aux. Qed.

Lemma dropChars_nil (n : nat) : dropChars n "" = "".
Proof. now destruct n. Qed.

Lemma replaceMatches_drop (q : string) (k : nat) (text : string) :
  replaceMatches q k text = replaceMatches q 0 (dropChars k text).
Proof.
  revert text. induction k as [|k IH]; intros text; [reflexivity |].
  destruct text as [|c t]; [reflexivity |]. cbn [replaceMatches dropChars].
  apply IH.
Qed.

Lemma matchStart_spec (q text m : string) :
  matchStart q text = Some m ->
  text = m ++ dropChars (String.length q) text /\
  toLowerCase m = toLowerCase q /\
  String.length m = String.length q.
Proof.
  revert text m. induction q as [|a q IH]; intros text m.
  - simpl. intros H. injection H as <-. now destruct text.
  - destruct text as [|b t]; [discriminate |]. cbn [matchStart].
    unfold sameLetter. destruct (Ascii.eqb_spec (lowerChar a) (lowerChar b)) as [E|N];
      [|discriminate].
    destruct (matchStart q t) as [m'|] eqn:M; [|discriminate].
    cbn [option_map]. intros H. injection H as <-.
    destruct (IH t m' M) as [Ht [Hl Hn]].
    cbn [dropChars String.length toLowerCase append].
    repeat split; [now rewrite <- Ht | now rewrite Hl, E | now rewrite Hn].
Qed.

Lemma dropChars_length (n : nat) (text : string) :
  String.length (dropChars n text) <= String.length text.
Proof.
  revert text. induction n as [|n IH]; intros text; [apply le_n |].
  destruct text as [|c t]; [apply le_n |]. cbn [dropChars String.length].
  specialize (IH t). lia.
Qed.

Lemma replaceMatches_Marks (q : string) (n : nat) (text : string) :
  q <> "" -> String.length text <= n ->
  Marks q text (replaceMatches q 0 text).
Proof.
  intros Nq. revert text. induction n as [|n IH]; intros text Hn.
  - destruct text; [constructor | simpl in Hn; lia].
  - destruct text as [|c rest]; [constructor |].
    cbn [replaceMatches].
    destruct (matchStart q (String c rest)) as [m|] eqn:M.
    + destruct (matchStart_spec _ _ _ M) as [Ht [Hl Hlen]].
      rewrite replaceMatches_drop.
      destruct q as [|a q']; [contradiction |].
      cbn [String.length pred dropChars] in *.
      rewrite Ht at 1. apply Marks_span.
      * exact Hl.
      * intros ->. discriminate Hlen.
      * apply IH. pose proof (dropChars_length (String.length q') rest).
        cbn [String.length] in Hn. lia.
    + apply Marks_char. apply IH. cbn [String.length] in Hn. lia.
Qed.

(** Highlighting only wraps text: the output of [highlightMatches] is
    the input text with some of its parts put inside the highlight span,
    every such part being an occurrence of the query up to letter case.
    No character of the text is lost or changed, and the query itself is
    not copied into the output. *)
Theorem highlightMatches_marks (text query : string) :
  (query = "" -> highlightMatches text query = text) /\
  (query <> "" -> Marks query text (highlightMatches text query)).
Proof.
  unfold highlightMatches. split.
  - intros ->. reflexivity.
  - intros N. destruct (String.eqb_spec query "") as [E|_]; [contradiction |].
    rewrite escapeRegExp_literal_aux.
    now apply (replaceMatches_Marks query (String.length text)).
Qed.

Lemma highlightMatches_marks_witness :
  Marks "zen" "Zen and zen" (highlightMatches "Zen and zen" "zen").
Proof.
  apply (proj2 (highlightMatches_marks "Zen and zen" "zen")). discriminate.
Defined.


Lemma matchStart_none (q text : string) :
  prefix (toLowerCase q) (toLowerCase text) = false ->
  matchStart q text = None.
Proof.
  revert text. induction q as [|a q IH]; intros text.
  - destruct text; discriminate.
  - destruct text as [|b t]; [reflexivity |].
    cbn [toLowerCase prefix matchStart]. unfold sameLetter.
    destruct (Ascii.eqb_spec (lowerChar a) (lowerChar b)) as [E|N].
    + destruct (ascii_dec (lowerChar a) (lowerChar b)); [|contradiction].
      intros H. now rewrite (IH t H).
    + reflexivity.
Qed.

(** A text in which the query does not occur, letter case ignored, comes
    back from [highlightMatches] as it is. *)
Theorem highlightMatches_no_match (text query : string) :
  includes (toLowerCase text) (toLowerCase query) = false ->
  highlightMatches text query = text.
Proof.
  unfold highlightMatches. destruct (query =? ""); [reflexivity |].
  rewrite escapeRegExp_literal_aux.
  induction text as [|c t IH]; [reflexivity |].
  cbn [toLowerCase includes]. intros H.
  apply orb_false_iff in H as [Hp Hi].
  cbn [replaceMatches].
  rewrite (matchStart_none query (String c t) Hp). now rewrite IH.
Qed.

Lemma highlightMatches_no_match_witness :
  highlightMatches "Food Diary" "zen" = "Food Diary".
Proof. apply highlightMatches_no_match. reflexivity. Defined.

End HtmlFacts.

(** ** The search box *)

Module ArchiveUIFacts.
Import JS JSFacts Archive ArchiveFacts ArchiveUI.

Lemma lowerChar_idem (c : ascii) : lowerChar (lowerChar c) = lowerChar c.
Proof. destruct c as [[|] [|] [|] [|] [|] [|] [|] [|]]; reflexivity. Qed.

Lemma toLowerCase_idem (s : string) :
  toLowerCase (toLowerCase s) = toLowerCase s.
Proof.
  induction s as [|c t IH]; simpl; [reflexivity |].
  now rewrite lowerChar_idem, IH.
Qed.

Lemma trimEnd_cons (c : ascii) (u : string) :
  trimEnd (String c u)
  = match trimEnd u with
    | EmptyString => if isSpace c then EmptyString else String c EmptyString
    | t' => String c t'
    end.
Proof. reflexivity. Qed.

Lemma trimEnd_idem (s : string) : trimEnd (trimEnd s) = trimEnd s.
Proof.
  induction s as [|c t IH]; [reflexivity |]. rewrite trimEnd_cons.
  destruct (trimEnd t) as [|d t'] eqn:E.
  - destruct (isSpace c) eqn:S; [reflexivity |].
    rewrite trimEnd_cons. cbn [trimEnd]. now rewrite S.
  - rewrite trimEnd_cons, IH. reflexivity.
Qed.

Lemma trimEnd_head (c : ascii) (t : string) :
  isSpace c = false -> exists t', trimEnd (String c t) = String c t'.
Proof.
  intros S. cbn [trimEnd]. destruct (trimEnd t) as [|d t'].
  - rewrite S. now exists "".
  - now exists (String d t').
Qed.

Lemma trim_idem (s : string) : trim (trim s) = trim s.
Proof.
  unfold trim.
  assert (H : trimStart s = "" \/
              exists c t, trimStart s = String c t /\ isSpace c = false).
  { induction s as [|c t IH]; [now left |]. cbn [trimStart].
    destruct (isSpace c) eqn:S; [exact IH |]. right. now exists c, t. }
  destruct H as [-> | [c [t [-> S]]]]; [reflexivity |].
  destruct (trimEnd_head c t S) as [t' E].
  rewrite E at 1. cbn [trimStart]. rewrite S. rewrite <- E.
  apply trimEnd_idem.
Qed.

Lemma Selects_iff {A : Type} (P Q : A -> Prop) (l r : list A) :
  (forall x, P x <-> Q x) -> Selects P l r -> Selects Q l r.
Proof.
  intros H. induction 1 as [|x l r Hx _ IH|x l r Hx _ IH].
  - constructor.
  - apply Selects_keep; [now apply H | exact IH].
  - apply Selects_drop; [|exact IH]. intros Hq. apply Hx. now apply H.
Qed.

(** The capital of a code unit that lowers to a small ASCII letter is
    one code unit, and lowers to the same letter. *)
Lemma toUpperCase1_letter (c : ascii) :
  (97 <=? N_of_ascii (lowerChar c))%N && (N_of_ascii (lowerChar c) <=? 122)%N
    = true ->
  toLowerCase (toUpperCase1 c) = String (lowerChar c) "".
Proof.
  destruct c as [[|] [|] [|] [|] [|] [|] [|] [|]]; vm_compute;
    intros H; try discriminate H; reflexivity.
Qed.

Lemma capitalize_category_word (q : string) :
  In (toLowerCase q) categoryWords ->
  toLowerCase (capitalize q) = toLowerCase q /\ capitalize q <> "" /\ q <> "".
Proof.
  intros H. destruct q as [|c t].
  - simpl in H. repeat destruct H as [H | H]; try discriminate H; contradiction.
  - cbn [capitalize toLowerCase] in *.
    assert (L : (97 <=? N_of_ascii (lowerChar c))%N
                && (N_of_ascii (lowerChar c) <=? 122)%N = true).
    { simpl in H. repeat destruct H as [H | H]; try contradiction;
        injection H as H _; rewrite <- H; reflexivity. }
    pose proof (toUpperCase1_letter c L) as U.
    assert (T : forall a b, toLowerCase (a ++ b) = toLowerCase a ++ toLowerCase b).
    { induction a as [|x a IH]; intros b; simpl; [reflexivity | now rewrite IH]. }
    rewrite T, U. split; [reflexivity |]. split; [|discriminate].
    intros E. apply (f_equal toLowerCase) in E. rewrite T, U in E.
    discriminate E.
Qed.

Lemma onSearch_query (value : string) (this : FilterState) :
  toLowerCase (trim (query (onSearch value this))) = toLowerCase (trim value).
Proof. cbn [onSearch query]. now rewrite trim_idem. Qed.


Lemma isCategoryWord_In (w : string) :
  existsb (String.eqb w) categoryWords = true <-> In w categoryWords.
Proof.
  rewrite existsb_exists. split.
  - intros [x [Hin E]]. apply String.eqb_eq in E. now subst.
  - intros H. exists w. split; [exact H | apply String.eqb_refl].
Qed.

(** Choosing a category.  When the text of the search box is a category
    word in any letter case (other than a spelling of "all" that
    capitalises to 'All'), the word becomes both the active category and
    the query: the feed shows exactly the items that have the word in
    their tag and also in their title, excerpt or author.  An item tagged
    with the category but not mentioning the word in its text is not
    shown. *)
Theorem search_by_category_word
  (value : string) (this : FilterState) (items : list Item) :
  In (toLowerCase (trim value)) categoryWords ->
  capitalize (trim value) <> "All" ->
  activeCategory (onSearch value this) = capitalize (trim value) /\
  Selects (InTagAndText (toLowerCase (trim value))) items
    (shown (onSearch value this) items).
Proof.
  intros Hw Hc.
  destruct (capitalize_category_word _ Hw) as [Hl [Hne Hq]].
  assert (Hcat : activeCategory (onSearch value this) = capitalize (trim value)).
  { cbn [onSearch activeCategory].
    rewrite (proj2 (isCategoryWord_In _) Hw).
    now destruct (String.eqb_spec (trim value) ""). }
  split; [exact Hcat |].
  unfold shown.
  apply (Selects_iff (matches (onSearch value this))); [|apply filterItems_Selects].
  intros item. unfold matches, categoryOK, queryOK, InTagAndText, SubstringCI.
  rewrite Hcat, Hl. cbn [onSearch query]. rewrite trim_idem, toLowerCase_idem.
  split.
  - intros [H1 H2]. split; [now apply H1 | now apply H2].
  - intros [H1 H2]. split; intros _; assumption.
Qed.

Lemma search_by_category_word_witness :
  activeCategory (onSearch " food " {| query := ""; activeCategory := "All" |})
    = "Food" /\
  Selects (InTagAndText "food") [zen; foodDiary]
    (shown (onSearch " food " {| query := ""; activeCategory := "All" |})
       [zen; foodDiary]).
Proof.
  apply (search_by_category_word " food "
           {| query := ""; activeCategory := "All" |} [zen; foodDiary]).
  - simpl. right. right. left. reflexivity.
  - discriminate.
Defined.

(** Searching a text.  When the text of the search box is no category
    word (or is a spelling of "all" that capitalises to 'All'), the
    category is reset to 'All' and the feed shows exactly the items whose
    title, excerpt and author, joined by spaces, contain the trimmed text
    in any letter case; every item when the trimmed text is empty. *)
Theorem search_by_text
  (value : string) (this : FilterState) (items : list Item) :
  ~ In (toLowerCase (trim value)) categoryWords \/
    capitalize (trim value) = "All" ->
  activeCategory (onSearch value this) = "All" /\
  Selects (InText (trim value)) items (shown (onSearch value this) items).
Proof.
  intros H.
  assert (Hcat : activeCategory (onSearch value this) = "All").
  { cbn [onSearch activeCategory].
    destruct (existsb _ categoryWords) eqn:E; [|reflexivity].
    destruct (String.eqb_spec (trim value) ""); [reflexivity |].
    destruct H as [H | H]; [|exact H].
    exfalso. apply H. now apply isCategoryWord_In. }
  split; [exact Hcat |].
  unfold shown.
  apply (Selects_iff (matches (onSearch value this))); [|apply filterItems_Selects].
  intros item. unfold matches, categoryOK, queryOK, InText.
  rewrite Hcat. cbn [onSearch query]. rewrite trim_idem.
  split.
  - intros [_ H2]. exact H2.
  - intros H2. split; [intros N; now contradiction N | exact H2].
Qed.

Lemma search_by_text_witness :
  Selects (InText "zen") [zen; foodDiary]
    (shown (onSearch "zen" {| query := ""; activeCategory := "Food" |})
       [zen; foodDiary]).
Proof.
  apply (search_by_text "zen" {| query := ""; activeCategory := "Food" |}
           [zen; foodDiary]).
  left. simpl. intros H.
  repeat destruct H as [H | H]; try discriminate H; contradiction.
Defined.

Lemma filter_all {A : Type} (f : A -> bool) (l : list A) :
  (forall x, f x = true) -> filter f l = l.
Proof.
  intros H. induction l as [|x l IH]; simpl; [reflexivity |].
  now rewrite H, IH.
Qed.

(** Clearing shows everything: after [onClear], and after an input that
    is empty or white space only, the feed shows every item, whatever the
    query and the category were before. *)
Theorem clear_shows_all
  (value : string) (this : FilterState) (items : list Item) :
  shown (onClear this) items = items /\
  (trim value = "" -> shown (onSearch value this) items = items).
Proof.
  split.
  - unfold shown, filterItems. now apply filter_all.
  - intros E. unfold shown, filterItems, onSearch. rewrite E.
    cbn [query toLowerCase trim trimStart trimEnd existsb].
    now apply filter_all.
Qed.

Lemma clear_shows_all_witness :
  shown (onSearch "   " {| query := "zen"; activeCategory := "Food" |})
    [zen; foodDiary]
  = [zen; foodDiary].
Proof.
  apply (clear_shows_all "   " {| query := "zen"; activeCategory := "Food" |}
           [zen; foodDiary]).
  reflexivity.
Defined.

End ArchiveUIFacts.

(** ** The subscribe buttons *)

Module SubscriptionFacts.
Import Subscriptions.

Lemma getItem_removeItem (k k' : string) (ls : Storage) :
  getItem k' (removeItem k ls) = if k' =? k then None else getItem k' ls.
Proof.
  induction ls as [|[a v] ls IH]; simpl.
  - now destruct (k' =? k).
  - destruct (String.eqb_spec a k) as [Ea|Na]; simpl; rewrite ?IH;
      destruct (String.eqb_spec k' k) as [Ek|Nk];
      try destruct (String.eqb_spec a k') as [Ek'|Nk'];
      congruence.
Qed.

Lemma getItem_setItem (k k' v : string) (ls : Storage) :
  getItem k' (setItem k v ls) = if k' =? k then Some v else getItem k' ls.
Proof.
  unfold setItem. cbn [getItem]. rewrite getItem_removeItem.
  rewrite (String.eqb_sym k k'). now destruct (k' =? k).
Qed.

Lemma subscribedKey_inj (a b : string) :
  subscribedKey a = subscribedKey b -> a = b.
Proof. unfold subscribedKey. simpl. intros H. now injection H. Qed.

Lemma subscribed_toggle (id id' : string) (ls : Storage) :
  subscribed id' (fst (toggleSubscribe id ls))
  = if id' =? id then negb (subscribed id ls) else subscribed id' ls.
Proof.
  unfold subscribed, toggleSubscribe.
  destruct (String.eqb_spec id' id) as [->|N].
  - destruct (JS.truthy (getItem (subscribedKey id) ls)) eqn:T; cbn [fst].
    + now rewrite getItem_removeItem, String.eqb_refl.
    + now rewrite getItem_setItem, String.eqb_refl.
  - assert (K : (subscribedKey id' =? subscribedKey id) = false).
    { apply String.eqb_neq. intros E. now apply subscribedKey_inj in E. }
    destruct (JS.truthy (getItem (subscribedKey id) ls)); cbn [fst].
    + now rewrite getItem_removeItem, K.
    + now rewrite getItem_setItem, K.
Qed.

(** One click on a subscribe button of the archive feed flips the
    subscription to that item and no other: the item is subscribed
    afterwards exactly when it was not before, every other item keeps its
    state, and the button gets the look that a new rendering of the feed
    would give it. *)
Theorem toggle_flips_one_subscription (id : string) (ls : Storage) :
  subscribed id (fst (toggleSubscribe id ls)) = negb (subscribed id ls) /\
  (forall id', id' <> id ->
     subscribed id' (fst (toggleSubscribe id ls)) = subscribed id' ls) /\
  snd (toggleSubscribe id ls) = renderedLook id (fst (toggleSubscribe id ls)).
Proof.
  split; [|split].
  - now rewrite subscribed_toggle, String.eqb_refl.
  - intros id' N. rewrite subscribed_toggle.
    now destruct (String.eqb_spec id' id).
  - pose proof (subscribed_toggle id id ls) as H.
    rewrite String.eqb_refl in H. unfold subscribed in H.
    unfold renderedLook. rewrite H.
    unfold toggleSubscribe.
    now destruct (JS.truthy (getItem (subscribedKey id) ls)).
Qed.

Lemma toggle_flips_one_subscription_witness :
  subscribed "2" (fst (toggleSubscribe "1" [("subscribed_2", "1")]))
  = subscribed "2" [("subscribed_2", "1")].
Proof.
  apply (proj1 (proj2 (toggle_flips_one_subscription "1"
                         [("subscribed_2", "1")]))).
  discriminate.
Defined.

(** Two clicks undo each other: after toggling the same item twice,
    every key of the storage reads as before, provided the key of the
    item was absent or held '1', the only value the page writes; and the
    item is subscribed exactly when it was, whatever its key held. *)
Theorem toggle_twice_restores (id : string) (ls : Storage) :
  let ls2 := fst (toggleSubscribe id (fst (toggleSubscribe id ls))) in
  subscribed id ls2 = subscribed id ls /\
  (getItem (subscribedKey id) ls = None \/
   getItem (subscribedKey id) ls = Some "1" ->
   forall k, getItem k ls2 = getItem k ls).
Proof.
  intros ls2. split.
  - unfold ls2. rewrite !subscribed_toggle, String.eqb_refl.
    apply negb_involutive.
  - intros H k. unfold ls2, toggleSubscribe.
    destruct H as [H | H]; rewrite H; cbn [fst].
    + cbn [JS.truthy fst]. rewrite getItem_setItem, String.eqb_refl.
      change (JS.truthy (Some "1")) with true. cbn [fst].
      rewrite getItem_removeItem, getItem_setItem.
      destruct (String.eqb_spec k (subscribedKey id)) as [->|]; congruence.
    + change (JS.truthy (Some "1")) with true. cbn [fst].
      rewrite getItem_removeItem, String.eqb_refl. cbn [JS.truthy fst].
      rewrite getItem_setItem, getItem_removeItem.
      destruct (String.eqb_spec k (subscribedKey id)) as [->|]; congruence.
Qed.

Lemma toggle_twice_restores_witness :
  getItem "subscribed_1"
    (fst (toggleSubscribe "1" (fst (toggleSubscribe "1" []))))
  = getItem "subscribed_1" [].
Proof.
  apply (proj2 (toggle_twice_restores "1" [])). left. reflexivity.
Defined.

Lemma subscribed_pageToggle (id : string) (ls : Storage) :
  subscribed id (fst (pageToggle id ls)) = negb (subscribed id ls).
Proof.
  unfold subscribed, pageToggle.
  destruct (JS.truthy (getItem (subscribedKey id) ls)) eqn:T; cbn [fst].
  - now rewrite getItem_removeItem, String.eqb_refl.
  - now rewrite getItem_setItem, String.eqb_refl.
Qed.

(** On the articles page every rendering adds one more click listener
    to the container.  After [n] renderings a click on a subscribe button
    runs [n] toggles: the subscription changes when [n] is odd and stays
    as it was when [n] is even, as after the first rendering and one
    input to the search box. *)
Theorem click_after_renderings (n : nat) (id : string) (ls : Storage) :
  listeners (rendered n) = n /\
  subscribed id (click (rendered n) id ls)
  = if Nat.odd n then negb (subscribed id ls) else subscribed id ls.
Proof.
  assert (L : listeners (rendered n) = n).
  { induction n as [|n IH]; [reflexivity |]. cbn. now rewrite IH. }
  split; [exact L |]. unfold click. rewrite L. clear L.
  revert ls. induction n as [|n IH]; intros ls; [reflexivity |].
  cbn [runListeners]. rewrite IH, subscribed_pageToggle.
  rewrite Nat.odd_succ, <- Nat.negb_odd.
  destruct (Nat.odd n); cbn [negb]; [now rewrite negb_involutive | reflexivity].
Qed.

End SubscriptionFacts.

(** ** The page searches *)

Module PageSearchFacts.
Import JS JSFacts Archive PageSearch.

Lemma includes_empty (s : string) : includes s "" = true.
Proof. apply includes_iff. apply Substring_empty. Qed.

Lemma filter_ext_on {A : Type} (f g : A -> bool) (l : list A) :
  Forall (fun x => f x = g x) l -> filter f l = filter g l.
Proof.
  induction 1 as [|x l Hx _ IH]; simpl; [reflexivity |].
  now rewrite Hx, IH.
Qed.

Lemma filter_Sublist {A : Type} (f : A -> bool) (l : list A) :
  Sublist (filter f l) l.
Proof.
  induction l as [|x l IH]; simpl; [constructor |].
  destruct (f x); now constructor.
Qed.

(** The search box of the articles page and the archive feed agree on
    titled items: when every item has a title, [json.js] shows for an
    input the items that [filterItems] keeps for that query under the
    category 'All'. *)
Theorem searchArticles_is_filterItems (value : string) (items : list Item) :
  Forall (fun a => Archive.title a <> None) items ->
  searchArticles value items
  = filterItems {| query := value; activeCategory := "All" |} items.
Proof.
  intros H. unfold searchArticles, filterItems. cbn [query].
  apply filter_ext_on. apply Forall_forall. intros a Ha.
  rewrite Forall_forall in H. specialize (H a Ha).
  unfold keeps, categoryRejects. cbn [activeCategory String.eqb Ascii.eqb
    Bool.eqb andb negb].
  destruct (Archive.title a) as [t|] eqn:T; [|contradiction].
  unfold combined. rewrite T.
  assert (E : orElse (Some t) "" = t).
  { simpl. now destruct (String.eqb_spec t "") as [->|]. }
  rewrite E. cbn [plusText].
  destruct (String.eqb_spec (toLowerCase (trim value)) "") as [->|];
    [apply includes_empty | reflexivity].
Qed.

Lemma searchArticles_is_filterItems_witness :
  searchArticles "ZEN" [zen; foodDiary]
  = filterItems {| query := "ZEN"; activeCategory := "All" |} [zen; foodDiary].
Proof.
  apply searchArticles_is_filterItems.
  repeat constructor; discriminate.
Defined.

(** An article without a title is found by the word "undefined": the
    search of the articles page joins the fields with [+], which writes an
    absent title out. *)
Theorem searchArticles_untitled (items : list Item) (a : Item) :
  In a items -> Archive.title a = None ->
  In a (searchArticles "undefined" items).
Proof.
  intros Hin T. unfold searchArticles. apply filter_In. split; [exact Hin |].
  rewrite T. cbn [plusText]. apply includes_iff.
  exists "". eexists. cbn [trim trimStart trimEnd toLowerCase append].
  reflexivity.
Qed.

Lemma searchArticles_untitled_witness :
  In {| Archive.title := None; excerpt := None; author := None; tag := None |}
    (searchArticles "undefined"
       [{| Archive.title := None; excerpt := None; author := None; tag := None |}]).
Proof.
  apply searchArticles_untitled; [left |]; reflexivity.
Defined.

(** Both page searches list everything for an input that is empty or
    white space only, and for every input list the articles, or books,
    in their order with some left out. *)
Theorem page_searches_blank_and_sublist (value : string)
  (articles : list Item) (books : list BookItem) :
  Sublist (searchArticles value articles) articles /\
  Sublist (searchBooks value books) books /\
  (trim value = "" ->
   searchArticles value articles = articles /\
   searchBooks value books = books).
Proof.
  split; [apply filter_Sublist |]. split; [apply filter_Sublist |].
  intros E. unfold searchArticles, searchBooks. rewrite E. cbn [toLowerCase].
  split; apply ArchiveUIFacts.filter_all; intros x; apply includes_empty.
Qed.

Lemma page_searches_blank_and_sublist_witness :
  searchArticles " " [zen; foodDiary] = [zen; foodDiary] /\
  searchBooks " " [{| PageSearch.title := Some "The Way of Nagomi";
                      description := None |}]
  = [{| PageSearch.title := Some "The Way of Nagomi"; description := None |}].
Proof.
  apply (page_searches_blank_and_sublist " " [zen; foodDiary]
           [{| PageSearch.title := Some "The Way of Nagomi";
               description := None |}]).
  reflexivity.
Defined.

End PageSearchFacts.

(** ** The review key of a book card *)

Module BookCardFacts.
Import JS JSFacts Html HtmlFacts BookCards.






End BookCardFacts.
